(** * app.js: the items / users CRUD API over a document store

    A shallow embedding of the six route handlers of [src/app.js] and of the
    document-store operations they await, followed by the properties of the
    resource-access contract.

    Layout:
    - [Js]       the fragment of JavaScript values and coercions the handlers use;
    - [Prog]     handlers as finite trees of awaited calls ([await] inside
                 [try]/[catch]);
    - [App]      the route handlers, one definition per [app.METHOD(...)];
    - [Mongo]    a reference model of the two collections and of bcrypt, used to
                 run a handler against a store state;
    - [Hex24]    ids as 24 hexadecimal digits, to evaluate the handlers;
    - [Spec]     the conditions the specification names;
    - [Obs], [Samples]  observations on requests and calls, sample requests;
    - the properties: of the handlers alone, then against the reference
      store, then evaluations on concrete requests; then further properties
      of each route (what it accepts, answers, calls and leaves alone). *)

From Stdlib Require Import QArith Ascii String.
From stdpp Require Import base option list strings gmap.

Local Open Scope string_scope.
Local Open Scope list_scope.

Set Warnings "-register-all".

(** ** JavaScript numbers

    A request body is produced by [express.json()], that is by [JSON.parse]:
    its numbers are finite doubles (rationals) or, for an overflowing literal
    such as [1e999], an infinity.  JSON has no literal for NaN, so NaN only
    appears as the result of a coercion and is the [None] of [ToNumber]
    below. *)

Inductive number : Type :=
| Fin (q : Q)
| PosInf
| NegInf.

Definition num_of_nat (n : nat) : number := Fin (inject_Z (Z.of_nat n)).

Definition num_eqb (a b : number) : bool :=
  match a, b with
  | Fin x, Fin y => Qeq_bool x y
  | PosInf, PosInf => true
  | NegInf, NegInf => true
  | _, _ => false
  end.

(** [a <= b] and [a < b] on numbers that are not NaN. *)
Definition num_leb (a b : number) : bool :=
  match a, b with
  | NegInf, _ => true
  | _, PosInf => true
  | Fin x, Fin y => Qle_bool x y
  | _, _ => false
  end.

Definition num_ltb (a b : number) : bool :=
  match a, b with
  | Fin x, Fin y => negb (Qle_bool y x)
  | NegInf, NegInf => false
  | NegInf, _ => true
  | Fin _, PosInf => true
  | _, _ => false
  end.

(** [ToBoolean] of a number: [0] (and [-0]) are falsy. *)
Definition num_truthy (a : number) : bool :=
  match a with
  | Fin x => negb (Qeq_bool x 0)
  | _ => true
  end.

(** ** The ObjectId class of the driver

    [ObjectId.isValid], [new ObjectId(string)] and the rendering of an id in a
    JSON response ([toHexString]) belong to the [mongodb] package, not to the
    repository: they are an interface here.  [ObjectId_new] is only applied to
    strings that [ObjectId_isValid] accepted. *)

Class ObjectIdLib : Type := {
  ObjectId : Type;
  ObjectId_eq_dec :: EqDecision ObjectId;
  ObjectId_countable :: Countable ObjectId;
  ObjectId_isValid : string -> bool;
  ObjectId_new : string -> ObjectId;
  toHexString : ObjectId -> string
}.

Module Js.
Section Values.
Context `{ObjectIdLib}.

(** Values held by request bodies, by the objects the handlers build and by
    stored documents.  An object is the sequence of its own properties in
    insertion order, each key once.  A string is the sequence of its
    characters, so that [String.length] is its [.length]. *)
Inductive value : Type :=
| VUndefined
| VNull
| VBool (b : bool)
| VNum (n : number)
| VStr (s : string)
| VArr (l : list value)
| VObj (o : list (string * value))
| VOid (i : ObjectId).

Definition object : Type := list (string * value).

(** [o.k]: the value of property [k], [undefined] when [o] has none. *)
Fixpoint get (k : string) (o : object) : value :=
  match o with
  | [] => VUndefined
  | (k', v) :: o' => if String.eqb k k' then v else get k o'
  end.

(** [v.k] on a value: only objects have properties of their own. *)
Definition member (k : string) (v : value) : value :=
  match v with
  | VObj o => get k o
  | _ => VUndefined
  end.

(** [Object.keys(o)] *)
Definition Object_keys (o : object) : list string := map fst o.

(** [o[k] = v]: overwrite in place, or add as the last property. *)
Fixpoint set (k : string) (v : value) (o : object) : object :=
  match o with
  | [] => [(k, v)]
  | (k', v') :: o' =>
      if String.eqb k k' then (k', v) :: o' else (k', v') :: set k v o'
  end.

(** [{ ...o, k: v }] *)
Definition spread_with (o : object) (k : string) (v : value) : object :=
  set k v o.

(** [ToBoolean], the test of [if (v)], [!v] and [a && b]. *)
Definition truthy (v : value) : bool :=
  match v with
  | VUndefined | VNull => false
  | VBool b => b
  | VNum n => num_truthy n
  | VStr s => negb (String.eqb s "")
  | VArr _ | VObj _ | VOid _ => true
  end.

Definition typeof (v : value) : string :=
  match v with
  | VUndefined => "undefined"
  | VNull => "object"
  | VBool _ => "boolean"
  | VNum _ => "number"
  | VStr _ => "string"
  | VArr _ | VObj _ | VOid _ => "object"
  end.

(** [v.length] for a [v] that is neither [null] nor [undefined] (on those
    the access throws; [register] only reaches it with a truthy [v]). *)
Definition length_of (v : value) : value :=
  match v with
  | VStr s => VNum (num_of_nat (String.length s))
  | VArr l => VNum (num_of_nat (length l))
  | VObj o => get "length" o
  | _ => VUndefined
  end.

(** Structural equality of two values, the comparison the store applies to
    field values. *)
Fixpoint value_eqb (a b : value) {struct a} : bool :=
  match a, b with
  | VUndefined, VUndefined => true
  | VNull, VNull => true
  | VBool x, VBool y => Bool.eqb x y
  | VNum x, VNum y => num_eqb x y
  | VStr x, VStr y => String.eqb x y
  | VArr l, VArr m =>
      (fix go (l m : list value) : bool :=
         match l, m with
         | [], [] => true
         | x :: l', y :: m' => value_eqb x y && go l' m'
         | _, _ => false
         end) l m
  | VObj o, VObj p =>
      (fix go (o p : list (string * value)) : bool :=
         match o, p with
         | [], [] => true
         | (k, x) :: o', (k', y) :: p' =>
             String.eqb k k' && value_eqb x y && go o' p'
         | _, _ => false
         end) o p
  | VOid i, VOid j => bool_decide (i = j)
  | _, _ => false
  end.

Definition object_eqb (o p : object) : bool := value_eqb (VObj o) (VObj p).

Section Coercions.
(** [ToNumber] on a string or an object parses text and calls
    [ToPrimitive]; that part of the language runtime is a parameter. *)
Variable ToNumber_ext : value -> option number.

(** [ToNumber]; [None] is NaN. *)
Definition ToNumber (v : value) : option number :=
  match v with
  | VUndefined => None
  | VNull => Some (Fin 0)
  | VBool b => Some (Fin (if b then 1 else 0))
  | VNum n => Some n
  | _ => ToNumber_ext v
  end.

(** [v <= n] and [v < n] against a numeric literal: false on NaN. *)
Definition js_le (v : value) (n : number) : bool :=
  match ToNumber v with
  | Some x => num_leb x n
  | None => false
  end.

Definition js_lt (v : value) (n : number) : bool :=
  match ToNumber v with
  | Some x => num_ltb x n
  | None => false
  end.
End Coercions.
End Values.
End Js.

Import Js.

(** ** Handlers as trees of awaited calls

    Every route handler is an [async] function: it runs until it sends a
    response, suspending at each [await].  A handler is embedded as the finite
    tree of the calls it awaits; the answer to a call (fulfilled with a value,
    or rejected) is supplied by whoever runs the tree. *)

Module Prog.
Section Calls.
Context `{ObjectIdLib}.

Inductive collection : Type := itemsCollection | usersCollection.

Record InsertOneResult : Type := { insertedId : ObjectId }.
Record UpdateResult : Type := { matchedCount : nat; modifiedCount : nat }.
Record DeleteResult : Type := { deletedCount : nat }.

(** The asynchronous calls of [app.js], indexed by the type of the value a
    fulfilled promise carries.  [findOne] is fulfilled with a document or
    [null] ([None]); [updateOne_set c f d] is [c.updateOne(f, { $set: d })]. *)
Inductive call : Type -> Type :=
| find_toArray (c : collection) (filter : object) : call (list object)
| findOne (c : collection) (filter : object) : call (option object)
| insertOne (c : collection) (doc : object) : call InsertOneResult
| updateOne_set (c : collection) (filter : object) (fields : object) : call UpdateResult
| deleteOne (c : collection) (filter : object) : call DeleteResult
| bcrypt_genSalt (rounds : nat) : call string
| bcrypt_hash (s : value) (salt : string) : call string.

Inductive settled (X : Type) : Type :=
| Fulfilled (x : X)
| Rejected.

Inductive prog (R : Type) : Type :=
| Ret (r : R)
| Throw
| Await {X : Type} (c : call X) (k : settled X -> prog R).

End Calls.

Arguments Fulfilled {X} x.
Arguments Rejected {X}.
Arguments Ret {_ R} r.
Arguments Throw {_ R}.
Arguments Await {_ R X} c k.

Section Monad.
Context `{ObjectIdLib}.

(** [await c]: the value of a fulfilled promise; a rejection is thrown. *)
Definition await {X : Type} (c : call X) : prog X :=
  Await c (fun o => match o with Fulfilled x => Ret x | Rejected => Throw end).

Fixpoint bind {A B : Type} (p : prog A) (f : A -> prog B) : prog B :=
  match p with
  | Ret a => f a
  | Throw => Throw
  | Await c k => Await c (fun o => bind (k o) f)
  end.

(** [try { p } catch (error) { h }] *)
Fixpoint try_catch {R : Type} (p : prog R) (h : prog R) : prog R :=
  match p with
  | Ret r => Ret r
  | Throw => h
  | Await c k => Await c (fun o => try_catch (k o) h)
  end.

(** Running a tree against an environment with state [W] that answers
    every call.  [None] is an exception no [catch] handled. *)
Definition environment (W : Type) : Type :=
  forall X : Type, call X -> W -> settled X * W.

Fixpoint run {W R : Type} (env : environment W) (p : prog R) (w : W) : option R * W :=
  match p with
  | Ret r => (Some r, w)
  | Throw => (None, w)
  | Await c k => let '(o, w') := env _ c w in run env (k o) w'
  end.

(** The calls a run makes, in order. *)
Definition any_call : Type := { X : Type & call X }.

Fixpoint trace {W R : Type} (env : environment W) (p : prog R) (w : W) : list any_call :=
  match p with
  | Ret _ | Throw => []
  | Await c k => let '(o, w') := env _ c w in existT _ c :: trace env (k o) w'
  end.

End Monad.
End Prog.
Import Prog.

Notation "x <- p ;; k" := (Prog.bind p (fun x => k))
  (at level 100, p at next level, right associativity, only parsing).
Notation "'try' p 'catch' h" := (Prog.try_catch p h)
  (at level 100, p at level 200, h at level 200, only parsing).

(** ** The route handlers

    One definition per route of [app.js], in the order of the file.  A request
    is what the handler reads of it: [req.params.id] and [req.body], the
    object [express.json()] parsed ([{}] when the request carries no JSON; an
    array body behaves as the object of its indices).  A response is the
    status and the value given to [res.status(..).json(..)].  [console.log] is
    not modelled. *)

Module App.
Section Handlers.
Context `{ObjectIdLib}.
Variable ToNumber_ext : value -> option number.

Record response : Type := json { status : nat; body : value }.

(** [{ message: m }] *)
Definition message (m : string) : value := VObj [("message", VStr m)].

(** [app.get('/items', ...)] *)
Definition get_items : prog response :=
  try (allItems <- await (find_toArray itemsCollection []) ;;
       Ret (json 200 (VArr (map VObj allItems))))
  catch Ret (json 500 (message "Failed to retrieve items due to server error.")).

(** [app.post('/items', ...)] *)
Definition post_items (body : object) : prog response :=
  let newItem : object :=
    [("name", get "name" body); ("price", get "price" body)] in
  if negb (truthy (get "name" newItem))
     || negb (String.eqb (typeof (get "price" newItem)) "number")
     || js_le ToNumber_ext (get "price" newItem) (Fin 0)
  then Ret (json 400 (message "Name (string) and positive Price (number) are required!"))
  else
    try (result <- await (insertOne itemsCollection newItem) ;;
         Ret (json 201 (VObj (spread_with newItem "_id" (VOid (insertedId result))))))
    catch Ret (json 500 (message "Failed to create item.")).

(** [app.get('/items/:id', ...)] *)
Definition get_item (requestedID : string) : prog response :=
  if negb (ObjectId_isValid requestedID)
  then Ret (json 400 (message "Invalid ID format. Must be a valid MongoDB ObjectId."))
  else
    try (foundItem <- await (findOne itemsCollection
                               [("_id", VOid (ObjectId_new requestedID))]) ;;
         match foundItem with
         | Some item => Ret (json 200 (VObj item))
         | None => Ret (json 404 (message "Item not found!"))
         end)
    catch Ret (json 500 (message "Failed to retrieve item due to server error.")).

(** [app.delete('/items/:id', ...)] *)
Definition delete_item (requestedID : string) : prog response :=
  if negb (ObjectId_isValid requestedID)
  then Ret (json 400 (message "Invalid ID format. Must be a valid MongoDB ObjectId."))
  else
    try (result <- await (deleteOne itemsCollection
                            [("_id", VOid (ObjectId_new requestedID))]) ;;
         if Nat.eqb (deletedCount result) 1
         then Ret (json 200 (message "Item has been deleted!"))
         else Ret (json 404 (message "Item not found!")))
    catch Ret (json 500 (message "Failed to delete item due to server error.")).

(** [app.put('/items/:id', ...)] *)
Definition put_item (requestedID : string) (body : object) : prog response :=
  if negb (ObjectId_isValid requestedID)
  then Ret (json 400 (message "Invalid ID format. Must be a valid MongoDB ObjectId."))
  else if Nat.eqb (length (Object_keys body)) 0
  then Ret (json 400 (message "Request body cannot be empty for update."))
  else if truthy (get "name" body)
          && negb (String.eqb (typeof (get "name" body)) "string")
  then Ret (json 400 (message "Name must be a string if provided."))
  else if truthy (get "price" body)
          && (negb (String.eqb (typeof (get "price" body)) "number")
              || js_le ToNumber_ext (get "price" body) (Fin 0))
  then Ret (json 400 (message "Price must be a positive number if provided."))
  else
    let newData : object :=
      [("name", get "name" body); ("price", get "price" body)] in
    try (updateResult <- await (updateOne_set itemsCollection
                                  [("_id", VOid (ObjectId_new requestedID))]
                                  newData) ;;
         if Nat.eqb (matchedCount updateResult) 0
         then Ret (json 404 (message "Item not found!"))
         else if Nat.eqb (modifiedCount updateResult) 0
         then Ret (json 200 (message "Item found, but no changes applied (data was identical)."))
         else Ret (json 200 (VObj [("message", VStr "Item updated successfully!");
                                   ("updatedId", VStr requestedID)])))
    catch Ret (json 500 (message "Failed to update item due to server error.")).

(** [app.post('/register', ...)] *)
Definition register (body : object) : prog response :=
  let username := get "username" body in
  let password := get "password" body in
  if negb (truthy username) || negb (truthy password)
  then Ret (json 400 (message "Enter a username and password to register."))
  else if js_lt ToNumber_ext (length_of password) (Fin 6)
  then Ret (json 400 (message "Password must be less than 6 characters"))
  else
    try (user <- await (findOne usersCollection [("username", username)]) ;;
         match user with
         | Some _ =>
             Ret (json 409 (message "User already exists pls try another name!"))
         | None =>
             salt <- await (bcrypt_genSalt 10) ;;
             hashedPassword <- await (bcrypt_hash password salt) ;;
             let newUser : object :=
               [("username", username); ("password", VStr hashedPassword)] in
             result <- await (insertOne usersCollection newUser) ;;
             Ret (json 201 (VObj [("message", VStr "User registered successfully!");
                                  ("userId", VOid (insertedId result))]))
         end)
    catch Ret (json 500 (message "Server error during registration.")).

End Handlers.
End App.
Import App.

(** ** A reference model of the collaborators

    The document store and bcrypt are outside the repository.  To run a
    handler, the two collections are modelled as finite maps from the [_id] of
    a document to its other fields, with the behaviour of the driver that the
    handlers rely on:
    - a document is serialised with the client's default options ([app.js]
      creates the [MongoClient] without [ignoreUndefined]), under which a
      property whose value is [undefined] is written as [null];
    - [insertOne] gives a document without [_id] a generated one and is
      rejected on a duplicate [_id];
    - a filter field matches a document field by equality, or by membership
      when the document field is an array (query operators in a filter are
      outside this model);
    - [updateOne] with [$set] writes every listed field into the first
      matching document and reports [modifiedCount = 0] when nothing changed;
    - [bcrypt.hash] is rejected for a password that is not a string. *)

Module Mongo.
Section Model.
Context `{ObjectIdLib}.

(** The generators of the driver and of bcrypt: the [n]-th id, the [n]-th
    salt, and the hash function. *)
Variable generate_id : nat -> ObjectId.
Variable generate_salt : nat -> string.
Variable hash : string -> string -> string.

Record state : Type := {
  items : gmap ObjectId object;
  users : gmap ObjectId object;
  clock : nat
}.

Definition coll (c : collection) (w : state) : gmap ObjectId object :=
  match c with
  | itemsCollection => items w
  | usersCollection => users w
  end.

Definition with_coll (c : collection) (m : gmap ObjectId object) (w : state) : state :=
  match c with
  | itemsCollection => {| items := m; users := users w; clock := clock w |}
  | usersCollection => {| items := items w; users := m; clock := clock w |}
  end.

Definition tick (w : state) : state :=
  {| items := items w; users := users w; clock := S (clock w) |}.

(** BSON serialisation of a JavaScript value. *)
Fixpoint bson (v : value) : value :=
  match v with
  | VUndefined => VNull
  | VArr l => VArr (map bson l)
  | VObj o => VObj (map (fun kv => match kv with (k, x) => (k, bson x) end) o)
  | _ => v
  end.

Definition bson_object (o : object) : object :=
  map (fun kv => match kv with (k, x) => (k, bson x) end) o.

(** The document stored under [i] with fields [f], as the store returns it. *)
Definition document (i : ObjectId) (f : object) : object :=
  ("_id", VOid i) :: f.

Definition field_matches (dv fv : value) : bool :=
  value_eqb (bson dv) fv
  || match dv with
     | VArr l => existsb (fun x => value_eqb x fv) l
     | _ => false
     end.

Definition matches (filter : object) (doc : object) : bool :=
  forallb (fun kv => match kv with (k, fv) => field_matches (get k doc) fv end)
          (bson_object filter).

(** The first document of a collection that matches a filter. *)
Definition first_match (filter : object) (m : gmap ObjectId object)
  : option (ObjectId * object) :=
  List.find (fun e => matches filter (document e.1 e.2)) (map_to_list m).

(** [$set]: write each field, in order. *)
Definition apply_set (fields : object) (f : object) : object :=
  fold_left (fun acc kv => set kv.1 kv.2 acc) (bson_object fields) f.

Definition remove_field (k : string) (o : object) : object :=
  List.filter (fun kv => negb (String.eqb kv.1 k)) o.

Definition store_insert (c : collection) (i : ObjectId) (f : object) (w : state)
  : settled InsertOneResult * state :=
  match coll c w !! i with
  | Some _ => (Rejected, w)
  | None => (Fulfilled {| insertedId := i |}, with_coll c (<[i := f]> (coll c w)) w)
  end.

Definition mongo : environment state :=
  fun X (c : call X) (w : state) =>
    match c in call T return settled T * state with
    | find_toArray c filter =>
        (Fulfilled (map (fun e => document e.1 e.2)
                      (List.filter (fun e => matches filter (document e.1 e.2))
                         (map_to_list (coll c w)))), w)
    | findOne c filter =>
        (Fulfilled ((fun e => document e.1 e.2) <$> first_match filter (coll c w)), w)
    | insertOne c doc =>
        match get "_id" doc with
        | VUndefined =>
            (* the driver generates the id *)
            store_insert c (generate_id (clock w)) (bson_object doc) (tick w)
        | VOid i => store_insert c i (remove_field "_id" (bson_object doc)) w
        | _ =>
            (* an id of another type: no handler supplies one, and the
               collections of this model are keyed by ObjectId *)
            (Rejected, w)
        end
    | updateOne_set c filter fields =>
        match get "_id" fields with
        | VUndefined =>
            match first_match filter (coll c w) with
            | None => (Fulfilled {| matchedCount := 0; modifiedCount := 0 |}, w)
            | Some (i, f) =>
                let f' := apply_set fields f in
                (Fulfilled {| matchedCount := 1;
                              modifiedCount := if object_eqb f f' then 0 else 1 |},
                 with_coll c (<[i := f']> (coll c w)) w)
            end
        | _ =>
            (* [_id] is immutable; no handler lists it under [$set] *)
            (Rejected, w)
        end
    | deleteOne c filter =>
        match first_match filter (coll c w) with
        | None => (Fulfilled {| deletedCount := 0 |}, w)
        | Some (i, _) =>
            (Fulfilled {| deletedCount := 1 |}, with_coll c (delete i (coll c w)) w)
        end
    | bcrypt_genSalt _ => (Fulfilled (generate_salt (clock w)), tick w)
    | bcrypt_hash (VStr p) salt => (Fulfilled (hash p salt), w)
    | bcrypt_hash _ _ => (Rejected, w)
    end.

(** Serving one request: the response sent and the state left behind. *)
Definition serve (p : prog response) (w : state) : option response * state :=
  run mongo p w.

End Model.
End Mongo.

(** ** An instance for evaluation

    An id is a 12-byte value, here the number it encodes.  The driver prints it
    as 24 hexadecimal digits, lower case; [ObjectId.isValid] accepts the
    strings of 24 hexadecimal digits and [new ObjectId] reads the digits in
    either case. *)

Module Hex24.

Definition hex_value (a : ascii) : option N :=
  let n := N_of_ascii a in
  if N.leb 48 n && N.leb n 57 then Some (n - 48)%N
  else if N.leb 97 n && N.leb n 102 then Some (n - 87)%N
  else if N.leb 65 n && N.leb n 70 then Some (n - 55)%N
  else None.

Fixpoint of_hex (s : string) (acc : N) : option N :=
  match s with
  | EmptyString => Some acc
  | String a s' =>
      match hex_value a with
      | Some d => of_hex s' (16 * acc + d)%N
      | None => None
      end
  end.

Definition hex_digit (d : N) : ascii :=
  if N.ltb d 10 then ascii_of_N (48 + d) else ascii_of_N (87 + d).

Fixpoint to_hex (digits : nat) (n : N) (acc : string) : string :=
  match digits with
  | O => acc
  | S k => to_hex k (n / 16)%N (String (hex_digit (n mod 16)%N) acc)
  end.

Definition isValid (s : string) : bool :=
  Nat.eqb (String.length s) 24
  && match of_hex s 0 with Some _ => true | None => false end.

Definition parse (s : string) : N :=
  match of_hex s 0 with Some n => n | None => 0%N end.

#[export] Instance lib : ObjectIdLib := {|
  ObjectId := N;
  ObjectId_isValid := isValid;
  ObjectId_new := parse;
  toHexString := fun i => to_hex 24 i ""
|}.

(** Runtime coercion of strings and objects to numbers: not exercised by the
    examples, which compare numbers only. *)
Definition no_coercion : value -> option number := fun _ => None.

(** The [n]-th generated id and salt, and a stand-in for the hash. *)
Definition generate_id (n : nat) : N :=
  (0x65f1c0de0000000000000000 + N.of_nat n)%N.

Definition generate_salt (n : nat) : string :=
  "$2a$10$salt" ++ String (hex_digit (N.of_nat n mod 16)) EmptyString.

Definition hash (p salt : string) : string := salt ++ "." ++ String.rev p.

Definition empty : Mongo.state :=
  {| Mongo.items := ∅; Mongo.users := ∅; Mongo.clock := 0 |}.

Definition mongo : environment Mongo.state :=
  Mongo.mongo generate_id generate_salt hash.

Definition serve : prog response -> Mongo.state -> option response * Mongo.state :=
  Mongo.serve generate_id generate_salt hash.

(** A store holding one item, and some request bodies. *)
Definition pen_id : string := "65f1c0de0000000000000000".

Definition with_item (fields : object) : Mongo.state :=
  {| Mongo.items := {[ parse pen_id := fields ]}; Mongo.users := ∅; Mongo.clock := 1 |}.

Definition one_pen : Mongo.state :=
  with_item [("name", VStr "Pen"); ("price", VNum (Fin (3 # 2)))].

Definition pen : object :=
  [("name", VStr "Pen"); ("price", VNum (Fin (3 # 2)))].

Definition bob (password : string) : object :=
  [("username", VStr "bob"); ("password", VStr password)].

Definition updated (requestedID : string) : value :=
  VObj [("message", VStr "Item updated successfully!");
        ("updatedId", VStr requestedID)].

End Hex24.

(** ** Conditions named by the specification

    The specification speaks of valid requests and of the rules of the
    validation layer; [app.js] has no function for them (each handler tests
    inline).  They are written out here, from the words of the specification,
    to state the properties. *)

Module Spec.
Section Conditions.
Context `{ObjectIdLib}.
Variable ToNumber_ext : value -> option number.

(** The body of every 400 response to a malformed identifier. *)
Definition invalid_id : value :=
  message "Invalid ID format. Must be a valid MongoDB ObjectId.".

(** Create-item: [name] present and a non-empty string; [price] present, a
    number, and [> 0]. *)
Definition create_item_valid (body : object) : bool :=
  match get "name" body, get "price" body with
  | VStr s, VNum n => negb (String.eqb s "") && num_ltb (Fin 0) n
  | _, _ => false
  end.

(** Update-item: id well-formed, body non-empty, [name] string-typed if
    present, [price] numeric and [> 0] if present; "present" read as the
    handler tests it. *)
Definition update_item_valid (requestedID : string) (body : object) : Prop :=
  ObjectId_isValid requestedID = true
  /\ length (Object_keys body) <> 0
  /\ (truthy (get "name" body) = true -> typeof (get "name" body) = "string")
  /\ (truthy (get "price" body) = true ->
      typeof (get "price" body) = "number"
      /\ js_le ToNumber_ext (get "price" body) (Fin 0) = false).

(** The item invariant: non-empty [name], [price > 0]. *)
Definition item_invariant (fields : object) : bool :=
  match get "name" fields, get "price" fields with
  | VStr s, VNum n => negb (String.eqb s "") && num_ltb (Fin 0) n
  | _, _ => false
  end.

(** The bodies of the responses of [POST /register] that carry only a
    message. *)
Definition registration_messages : list string :=
  [ "Enter a username and password to register.";
    "Password must be less than 6 characters";
    "User already exists pls try another name!";
    "Server error during registration." ].

End Conditions.
End Spec.
Import Spec.

(** ** Observations on requests and calls

    What the tests of the handlers come to on the shape of a value, and the
    collection a call addresses.  Used to state what each route accepts and
    which collection it reaches. *)

Module Obs.
Section Observations.
Context `{ObjectIdLib}.

(** A number that is [> 0]. *)
Definition positive_number (v : value) : bool :=
  match v with
  | VNum n => num_ltb (Fin 0) n
  | _ => false
  end.

Definition is_string (v : value) : bool :=
  match v with
  | VStr _ => true
  | _ => false
  end.

(** The bodies [POST /items] lets through: a truthy [name] and a [price]
    that is a number above zero. *)
Definition create_passes (reqBody : object) : bool :=
  truthy (get "name" reqBody) && positive_number (get "price" reqBody).

(** The requests [PUT /items/:id] lets through: a well-formed id, a body with
    at least one property, a [name] that is falsy or a string, a [price] that
    is falsy or a number above zero. *)
Definition update_passes (requestedID : string) (reqBody : object) : bool :=
  ObjectId_isValid requestedID
  && negb (Nat.eqb (length (Object_keys reqBody)) 0)
  && (negb (truthy (get "name" reqBody)) || is_string (get "name" reqBody))
  && (negb (truthy (get "price" reqBody)) || positive_number (get "price" reqBody)).

(** The collection a call addresses; bcrypt calls address none. *)
Definition call_collection (c : any_call) : option collection :=
  match projT2 c with
  | find_toArray c _ => Some c
  | findOne c _ => Some c
  | insertOne c _ => Some c
  | updateOne_set c _ _ => Some c
  | deleteOne c _ => Some c
  | bcrypt_genSalt _ => None
  | bcrypt_hash _ _ => None
  end.

(** The answer of [PUT /items/:id] to the result of [updateOne]. *)
Definition update_answer (requestedID : string) (result : UpdateResult) : response :=
  if Nat.eqb (matchedCount result) 0
  then json 404 (message "Item not found!")
  else if Nat.eqb (modifiedCount result) 0
  then json 200 (message "Item found, but no changes applied (data was identical).")
  else json 200 (VObj [("message", VStr "Item updated successfully!");
                       ("updatedId", VStr requestedID)]).

End Observations.
End Obs.
Import Obs.

(** Requests used to instantiate the properties. *)
Module Samples.
Import Hex24.

Definition missing_id : string := "65f1c0de00000000000000ff".

Definition numeric_password : object :=
  [("username", VStr "bob"); ("password", VNum (Fin 1234567))].

Definition rename_pen : object := [("name", VStr "Pen2")].

Definition same_pen : object :=
  [("name", VStr "Pen"); ("price", VNum (Fin (3 # 2)))].

(** A store holding one user. *)
Definition bob_stored : object :=
  [("username", VStr "bob"); ("password", VStr "$2a$10$salt0.1terces")].

Definition with_bob : Mongo.state :=
  {| Mongo.items := ∅;
     Mongo.users := {[ generate_id 1 := bob_stored ]};
     Mongo.clock := 2 |}.

(** An environment whose store is down: every call is rejected. *)
Definition store_down : environment unit :=
  fun X _ w => (Rejected, w).

End Samples.

(** * Properties *)

(** ** Running a handler *)

Section RunLemmas.
Context `{ObjectIdLib}.
Context {W R : Type} (env : environment W).

(** A handler that answers at once makes no call and leaves every
    environment as it was. *)
Lemma run_Ret (r : R) (w : W) :
  run env (Ret r) w = (Some r, w) /\ trace env (Ret r) w = [].
Proof. split; reflexivity. Qed.

(** One awaited call inside [try]: the continuation runs on the fulfilled
    value, the [catch] block on a rejection. *)
Lemma run_try_await {X : Type} (c : call X) (k : X -> prog R) (h : prog R) (w : W) :
  run env (try (x <- await c ;; k x) catch h) w =
  match env _ c w with
  | (Fulfilled x, w') => run env (try k x catch h) w'
  | (Rejected, w') => run env h w'
  end.
Proof. simpl. destruct (env _ c w) as [[x|] w']; reflexivity. Qed.

Lemma trace_try_await {X : Type} (c : call X) (k : X -> prog R) (h : prog R) (w : W) :
  trace env (try (x <- await c ;; k x) catch h) w =
  existT _ c ::
  match env _ c w with
  | (Fulfilled x, w') => trace env (try k x catch h) w'
  | (Rejected, w') => trace env h w'
  end.
Proof. simpl. destruct (env _ c w) as [[x|] w']; reflexivity. Qed.

End RunLemmas.

(** ** Validation and dispatch: properties of the handlers alone *)

Section HandlerProperties.
Context `{ObjectIdLib}.
Variable ToNumber_ext : value -> option number.

Local Abbreviation post_items := (App.post_items ToNumber_ext).
Local Abbreviation put_item := (App.put_item ToNumber_ext).
Local Abbreviation register := (App.register ToNumber_ext).

(** C6. A malformed identifier ([ObjectId.isValid] rejects it) makes each of
    get-by-id, update-by-id and delete-by-id answer 400 at once: the handler
    awaits no call, so the store is not invoked. *)
Theorem malformed_id_400_without_store (requestedID : string) (body : object) :
  ObjectId_isValid requestedID = false ->
  get_item requestedID = Ret (json 400 invalid_id)
  /\ put_item requestedID body = Ret (json 400 invalid_id)
  /\ delete_item requestedID = Ret (json 400 invalid_id).
Proof.
  intros Hbad. unfold get_item, App.put_item, delete_item.
  rewrite Hbad. simpl. auto.
Qed.

(** C8. An update with an empty body ([Object.keys(req.body).length === 0])
    is answered 400 whatever the identifier: the handler returns before it
    awaits any call, so under every environment and in every state the
    response is the same, the state is untouched and nothing is asked of the
    store. *)
Theorem put_item_empty_body_400 (requestedID : string) (body : object) :
  length (Object_keys body) = 0 ->
  exists r : response,
    status r = 400
    /\ put_item requestedID body = Ret r
    /\ forall (W : Type) (env : environment W) (w : W),
         run env (put_item requestedID body) w = (Some r, w)
         /\ trace env (put_item requestedID body) w = [].
Proof.
  intros Hempty. unfold App.put_item. rewrite Hempty. simpl.
  destruct (ObjectId_isValid requestedID); simpl;
    eexists; (split; [|split; [reflexivity|]]); try reflexivity;
    intros; split; reflexivity.
Qed.

(** X22. A valid update makes exactly one call, and its [$set] always lists both
    [name] and [price], with the value [undefined] for a property the body
    does not have. *)
Lemma put_item_sets_name_and_price
    (requestedID : string) (reqBody : object)
    (W : Type) (env : environment W) (w : W) :
  update_item_valid ToNumber_ext requestedID reqBody ->
  trace env (put_item requestedID reqBody) w =
  [existT _ (updateOne_set itemsCollection
               [("_id", VOid (ObjectId_new requestedID))]
               [("name", get "name" reqBody); ("price", get "price" reqBody)])].
Proof.
  intros (Hid & Hbody & Hname & Hprice).
  assert (Cname : truthy (get "name" reqBody)
                  && negb (String.eqb (typeof (get "name" reqBody)) "string") = false).
  { destruct (truthy (get "name" reqBody)); [|reflexivity].
    rewrite (Hname eq_refl). reflexivity. }
  assert (Cprice : truthy (get "price" reqBody)
                   && (negb (String.eqb (typeof (get "price" reqBody)) "number")
                       || js_le ToNumber_ext (get "price" reqBody) (Fin 0)) = false).
  { destruct (truthy (get "price" reqBody)); [|reflexivity].
    destruct (Hprice eq_refl) as [-> ->]. reflexivity. }
  unfold App.put_item. rewrite Hid, Cname, Cprice. simpl negb. cbv iota.
  destruct (Nat.eqb_spec (length (Object_keys reqBody)) 0) as [|_]; [contradiction|].
  rewrite trace_try_await.
  destruct (env _ _ w) as [[r|] w1]; [|reflexivity].
  destruct (Nat.eqb (matchedCount r) 0); [reflexivity|].
  destruct (Nat.eqb (modifiedCount r) 0); reflexivity.
Qed.

(** C5. For a valid update, the answer follows the result the store reports,
    existence first: no match is 404; a match with nothing modified is 200
    with the "no changes" message; a modification is 200 with the "updated"
    message.  The store reports [modifiedCount <= matchedCount]. *)
Theorem put_item_response_by_update_result
    (requestedID : string) (body : object)
    (W : Type) (env : environment W) (w w' : W) (result : UpdateResult) :
  update_item_valid ToNumber_ext requestedID body ->
  env _ (updateOne_set itemsCollection
           [("_id", VOid (ObjectId_new requestedID))]
           [("name", get "name" body); ("price", get "price" body)]) w
    = (Fulfilled result, w') ->
  modifiedCount result <= matchedCount result ->
  let answer := run env (put_item requestedID body) w in
  (matchedCount result = 0 ->
     answer = (Some (json 404 (message "Item not found!")), w'))
  /\ (0 < matchedCount result -> modifiedCount result = 0 ->
     answer = (Some (json 200 (message
                 "Item found, but no changes applied (data was identical).")), w'))
  /\ (0 < modifiedCount result ->
     answer = (Some (json 200 (VObj [("message", VStr "Item updated successfully!");
                                     ("updatedId", VStr requestedID)])), w')).
Proof.
  intros (Hid & Hbody & Hname & Hprice) Hcall Hle answer.
  assert (Hrun : answer =
    (Some (if Nat.eqb (matchedCount result) 0
           then json 404 (message "Item not found!")
           else if Nat.eqb (modifiedCount result) 0
           then json 200 (message
                  "Item found, but no changes applied (data was identical).")
           else json 200 (VObj [("message", VStr "Item updated successfully!");
                                ("updatedId", VStr requestedID)])), w')).
  { assert (Cname : truthy (get "name" body)
                    && negb (String.eqb (typeof (get "name" body)) "string") = false).
    { destruct (truthy (get "name" body)); [|reflexivity].
      rewrite (Hname eq_refl). reflexivity. }
    assert (Cprice : truthy (get "price" body)
                     && (negb (String.eqb (typeof (get "price" body)) "number")
                         || js_le ToNumber_ext (get "price" body) (Fin 0)) = false).
    { destruct (truthy (get "price" body)); [|reflexivity].
      destruct (Hprice eq_refl) as [-> ->]. reflexivity. }
    subst answer. unfold App.put_item. rewrite Hid, Cname, Cprice. simpl negb. cbv iota.
    destruct (Nat.eqb_spec (length (Object_keys body)) 0) as [|_]; [contradiction|].
    rewrite run_try_await, Hcall.
    destruct (Nat.eqb (matchedCount result) 0); [reflexivity|].
    destruct (Nat.eqb (modifiedCount result) 0); reflexivity. }
  rewrite Hrun. repeat split.
  - intros ->. reflexivity.
  - intros Hm ->. destruct (Nat.eqb_spec (matchedCount result) 0); [lia|reflexivity].
  - intros Hm.
    destruct (Nat.eqb_spec (matchedCount result) 0); [lia|].
    destruct (Nat.eqb_spec (modifiedCount result) 0); [lia|reflexivity].
Qed.

(** Create-item validation agrees with the rule of the specification on every
    body whose [name] is a string or is falsy. *)
Lemma post_items_validation_on_string_names (reqBody : object) :
  typeof (get "name" reqBody) = "string" \/ truthy (get "name" reqBody) = false ->
  if create_item_valid reqBody
  then exists k, post_items reqBody =
         Await (insertOne itemsCollection
                  [("name", get "name" reqBody); ("price", get "price" reqBody)]) k
  else post_items reqBody =
         Ret (json 400 (message
           "Name (string) and positive Price (number) are required!")).
Proof.
  intros Hname. unfold create_item_valid, App.post_items. simpl get.
  destruct (get "name" reqBody) as [| |b|n|s|l|o|i] eqn:En; simpl in Hname;
    try (destruct Hname as [Hn|Hn]; discriminate Hn); try reflexivity.
  - destruct Hname as [Hn|Hn]; [discriminate Hn|]. simpl. rewrite Hn. reflexivity.
  - destruct Hname as [Hn|Hn]; [discriminate Hn|]. simpl. rewrite Hn. reflexivity.
  - simpl truthy.
    destruct (get "price" reqBody) as [| |b|n|s'|l|o|i] eqn:Ep;
      try (destruct (negb (String.eqb s "")); reflexivity).
    destruct (negb (String.eqb s "")); [|reflexivity]. simpl.
    unfold js_le. simpl.
    destruct n as [q| |]; simpl; try (eexists; reflexivity); try reflexivity.
    destruct (Qle_bool q 0); simpl; [reflexivity|eexists; reflexivity].
Qed.

(** C10. Whatever the body holds, the only call a create-item request makes
    is one [insertOne] on the items collection with the two-property document
    [{name, price}] read from the body, and a 201 response carries exactly
    these two properties and the [_id] the store returned: every other
    property of the body is dropped. *)
Theorem post_items_keeps_only_name_price
    (reqBody : object) (W : Type) (env : environment W) (w : W) :
  let newItem := [("name", get "name" reqBody); ("price", get "price" reqBody)] in
  (trace env (post_items reqBody) w = []
   \/ trace env (post_items reqBody) w = [existT _ (insertOne itemsCollection newItem)])
  /\ (forall (r : response) (w' : W),
       run env (post_items reqBody) w = (Some r, w') -> status r = 201 ->
       exists i : ObjectId,
         body r = VObj [("name", get "name" reqBody);
                        ("price", get "price" reqBody);
                        ("_id", VOid i)]
         /\ env _ (insertOne itemsCollection newItem) w
            = (Fulfilled {| insertedId := i |}, w')).
Proof.
  intros newItem. unfold App.post_items. fold newItem.
  destruct (negb (truthy (get "name" newItem))
            || negb (String.eqb (typeof (get "price" newItem)) "number")
            || js_le ToNumber_ext (get "price" newItem) (Fin 0)).
  - split; [left; reflexivity|].
    intros r w' Hrun H201. simpl in Hrun. injection Hrun as <- <-. discriminate H201.
  - rewrite trace_try_await, run_try_await.
    destruct (env _ (insertOne itemsCollection newItem) w) as [[[i]|] w1].
    + split; [right; reflexivity|].
      intros r w' Hrun _. simpl in Hrun. injection Hrun as <- <-.
      exists i. split; reflexivity.
    + split; [right; reflexivity|].
      intros r w' Hrun H201. simpl in Hrun. injection Hrun as <- <-. discriminate H201.
Qed.

(** X23. A password that is a string of fewer than six characters is refused
    with 400 before any call is awaited. *)
Lemma register_short_password_400 (reqBody : object) (p : string) :
  get "password" reqBody = VStr p -> String.length p < 6 ->
  exists m : string, register reqBody = Ret (json 400 (message m)).
Proof.
  intros Hp Hlen. unfold App.register. rewrite Hp.
  destruct (negb (truthy (get "username" reqBody)) || negb (truthy (VStr p)));
    [eexists; reflexivity|].
  assert (Hlt : js_lt ToNumber_ext (length_of (VStr p)) (Fin 6) = true).
  { unfold js_lt. simpl.
    destruct (String.length p) as [|[|[|[|[|[|n]]]]]]; try reflexivity. lia. }
  rewrite Hlt. eexists; reflexivity.
Qed.

(** Every run of the registration handler sends a response, and its body is
    either one of the fixed messages or the success object
    [{ message, userId }] whose only request-dependent part is the id the
    store returned. *)
Lemma register_response_shape
    (reqBody : object) (W : Type) (env : environment W) (w : W) :
  exists (r : response) (w' : W),
    run env (register reqBody) w = (Some r, w')
    /\ ((exists m, In m registration_messages /\ body r = message m)
        \/ (exists i : ObjectId,
              body r = VObj [("message", VStr "User registered successfully!");
                             ("userId", VOid i)])).
Proof.
  unfold App.register, registration_messages.
  destruct (negb (truthy (get "username" reqBody))
            || negb (truthy (get "password" reqBody))).
  { do 2 eexists. split; [reflexivity|]. left. eexists. split; [|reflexivity].
    simpl; auto. }
  destruct (js_lt ToNumber_ext (length_of (get "password" reqBody)) (Fin 6)).
  { do 2 eexists. split; [reflexivity|]. left. eexists. split; [|reflexivity].
    simpl; auto. }
  rewrite run_try_await.
  destruct (env _ (findOne usersCollection _) w) as [[[user|]|] w1].
  - do 2 eexists. split; [reflexivity|]. left. eexists. split; [|reflexivity].
    simpl; auto.
  - rewrite run_try_await.
    destruct (env _ (bcrypt_genSalt 10) w1) as [[salt|] w2].
    + rewrite run_try_await.
      destruct (env _ (bcrypt_hash _ salt) w2) as [[hashed|] w3].
      * rewrite run_try_await.
        destruct (env _ (insertOne usersCollection _) w3) as [[[i]|] w4].
        -- do 2 eexists. split; [reflexivity|]. right. exists i. reflexivity.
        -- do 2 eexists. split; [reflexivity|]. left. eexists.
           split; [|reflexivity]. simpl; auto.
      * do 2 eexists. split; [reflexivity|]. left. eexists.
        split; [|reflexivity]. simpl; auto.
    + do 2 eexists. split; [reflexivity|]. left. eexists.
      split; [|reflexivity]. simpl; auto.
  - do 2 eexists. split; [reflexivity|]. left. eexists. split; [|reflexivity].
    simpl; auto.
Qed.

End HandlerProperties.

(** ** The handlers against the reference store *)

Section StoreProperties.
Context `{ObjectIdLib}.
Variable ToNumber_ext : value -> option number.
Variable generate_id : nat -> ObjectId.
Variable generate_salt : nat -> string.
Variable hash : string -> string -> string.

Local Abbreviation post_items := (App.post_items ToNumber_ext).
Local Abbreviation put_item := (App.put_item ToNumber_ext).
Local Abbreviation register := (App.register ToNumber_ext).
Local Abbreviation serve := (Mongo.serve generate_id generate_salt hash).
Local Abbreviation mongo := (Mongo.mongo generate_id generate_salt hash).

Lemma matches_id (i j : ObjectId) (f : object) :
  Mongo.matches [("_id", VOid i)] (Mongo.document j f) = bool_decide (j = i).
Proof.
  unfold Mongo.matches, Mongo.document, Mongo.field_matches. simpl.
  rewrite orb_false_r, andb_true_r. reflexivity.
Qed.

(** A filter on [_id] finds the document stored under that id, if any. *)
Lemma first_match_by_id (m : gmap ObjectId object) (i : ObjectId) :
  Mongo.first_match [("_id", VOid i)] m = (fun f => (i, f)) <$> m !! i.
Proof.
  unfold Mongo.first_match.
  destruct (find _ _) as [[j f]|] eqn:E.
  - apply find_some in E as [Hin Hm]. simpl in Hm.
    rewrite matches_id in Hm. apply bool_decide_eq_true in Hm. subst j.
    apply list_elem_of_In, elem_of_map_to_list in Hin. rewrite Hin. reflexivity.
  - destruct (m !! i) as [f|] eqn:L; [|reflexivity]. exfalso.
    apply elem_of_map_to_list, list_elem_of_In in L.
    apply (find_none _ _ E) in L. simpl in L.
    rewrite matches_id, bool_decide_eq_false in L. apply L. reflexivity.
Qed.

(** A filter that some stored document satisfies finds a document. *)
Lemma first_match_exists (filter : object) (m : gmap ObjectId object)
    (i : ObjectId) (f : object) :
  m !! i = Some f -> Mongo.matches filter (Mongo.document i f) = true ->
  exists e, Mongo.first_match filter m = Some e.
Proof.
  intros L Hm. unfold Mongo.first_match.
  destruct (find _ _) as [e|] eqn:E; [eauto|]. exfalso.
  apply elem_of_map_to_list, list_elem_of_In in L.
  apply (find_none _ _ E) in L. simpl in L. congruence.
Qed.

(** The length test of the registration handler on a string. *)
Lemma password_length_test (p : string) :
  js_lt ToNumber_ext (length_of (VStr p)) (Fin 6) = Nat.ltb (String.length p) 6.
Proof.
  unfold js_lt. simpl. unfold Qle_bool. simpl.
  destruct (Nat.ltb_spec (String.length p) 6);
    destruct (Z.leb_spec 6 (Z.of_nat (String.length p) * 1)); simpl; lia.
Qed.

(** X24. What a successful create persists: one new document, under the
    generated id, holding [name] and [price] and nothing else; the users
    collection is untouched. *)
Lemma post_items_stores_name_price
    (reqBody : object) (w w' : Mongo.state) (r : response) :
  serve (post_items reqBody) w = (Some r, w') -> status r = 201 ->
  Mongo.items w' =
    <[generate_id (Mongo.clock w) :=
        [("name", Mongo.bson (get "name" reqBody));
         ("price", Mongo.bson (get "price" reqBody))]]> (Mongo.items w)
  /\ Mongo.users w' = Mongo.users w.
Proof.
  unfold Mongo.serve, App.post_items.
  destruct (negb _ || _ || _).
  - simpl. intros [= <- <-] H201. discriminate H201.
  - rewrite run_try_await. simpl Mongo.mongo. unfold Mongo.store_insert.
    simpl Mongo.coll.
    destruct (Mongo.items w !! generate_id (Mongo.clock w)).
    + simpl. intros [= <- <-] H201. discriminate H201.
    + simpl. intros [= <- <-] _. split; reflexivity.
Qed.

(** C9. Round trip: a create with a valid [name] and [price] answers 201 with
    the generated id, and a get by that id (as the response prints it) answers
    200 with the same [name] and [price].  Delete: deleting an existing id
    answers 200, deleting it again answers 404.  The generated id is one the
    collection does not hold yet, and the driver reads back the id it
    printed. *)
Theorem create_get_round_trip_and_delete_twice
    (w : Mongo.state) (reqBody : object) (s : string) (n : number)
    (w0 : Mongo.state) (requestedID : string) (f : object) :
  get "name" reqBody = VStr s -> s <> "" ->
  get "price" reqBody = VNum n -> num_ltb (Fin 0) n = true ->
  let i := generate_id (Mongo.clock w) in
  Mongo.items w !! i = None ->
  ObjectId_isValid (toHexString i) = true ->
  ObjectId_new (toHexString i) = i ->
  ObjectId_isValid requestedID = true ->
  Mongo.items w0 !! ObjectId_new requestedID = Some f ->
  (exists (r1 r2 : response) (w1 : Mongo.state),
      serve (post_items reqBody) w = (Some r1, w1)
      /\ status r1 = 201
      /\ member "_id" (body r1) = VOid i
      /\ serve (get_item (toHexString i)) w1 = (Some r2, w1)
      /\ status r2 = 200
      /\ member "name" (body r2) = get "name" reqBody
      /\ member "price" (body r2) = get "price" reqBody)
  /\ (exists (d1 d2 : response) (w1 w2 : Mongo.state),
      serve (delete_item requestedID) w0 = (Some d1, w1)
      /\ status d1 = 200
      /\ serve (delete_item requestedID) w1 = (Some d2, w2)
      /\ status d2 = 404).
Proof.
  intros Hname Hs Hprice Hpos i Hfresh Hvalid Hnew Hid Hitem. split.
  - assert (Hpass : negb (truthy (VStr s))
                    || negb (String.eqb (typeof (VNum n)) "number")
                    || js_le ToNumber_ext (VNum n) (Fin 0) = false).
    { simpl. destruct (String.eqb_spec s ""); [contradiction|]. simpl.
      unfold js_le. simpl. destruct n as [q| |]; simpl in *; try congruence.
      destruct (Qle_bool q 0); simpl in *; congruence. }
    unfold Mongo.serve, App.post_items. simpl get. rewrite Hname, Hprice, Hpass.
    do 3 eexists. split.
    { rewrite run_try_await. simpl Mongo.mongo.
      unfold Mongo.store_insert. simpl. fold i. rewrite Hfresh. reflexivity. }
    split; [reflexivity|]. split; [reflexivity|].
    unfold get_item. rewrite Hvalid, Hnew. simpl negb. cbv iota. split.
    { rewrite run_try_await. simpl Mongo.mongo.
      rewrite first_match_by_id. simpl. rewrite lookup_insert_eq. reflexivity. }
    split; [reflexivity|]. split; reflexivity.
  - unfold Mongo.serve, delete_item. rewrite Hid. simpl negb. cbv iota.
    do 4 eexists. split.
    { rewrite run_try_await. simpl Mongo.mongo.
      rewrite first_match_by_id. simpl. rewrite Hitem. reflexivity. }
    split; [reflexivity|]. split.
    { rewrite run_try_await. simpl Mongo.mongo.
      rewrite first_match_by_id. simpl. rewrite lookup_delete_eq. reflexivity. }
    reflexivity.
Qed.

(** C7. Two registrations with the same username, both with a valid payload,
    the username not taken before the first: the first answers 201, the second
    409 after the pre-check query found the user, and the second changes
    nothing.  And whatever the request and the answers of the store and of
    bcrypt, the handler sends a response whose body is one of four fixed
    messages or the success object [{ message, userId }]: no response is built
    from the password or from its hash. *)
Theorem register_twice_and_no_password_in_response :
  (forall (w : Mongo.state) (body1 body2 : object) (u p1 p2 : string),
      get "username" body1 = VStr u -> get "username" body2 = VStr u -> u <> "" ->
      get "password" body1 = VStr p1 -> 6 <= String.length p1 ->
      get "password" body2 = VStr p2 -> 6 <= String.length p2 ->
      Mongo.first_match [("username", VStr u)] (Mongo.users w) = None ->
      Mongo.users w !! generate_id (S (Mongo.clock w)) = None ->
      exists (r1 r2 : response) (w1 : Mongo.state),
        serve (register body1) w = (Some r1, w1)
        /\ status r1 = 201
        /\ serve (register body2) w1 = (Some r2, w1)
        /\ status r2 = 409)
  /\ (forall (reqBody : object) (W : Type) (env : environment W) (w : W),
      exists (r : response) (w' : W),
        run env (register reqBody) w = (Some r, w')
        /\ ((exists m, In m registration_messages /\ body r = message m)
            \/ (exists i : ObjectId,
                  body r = VObj [("message", VStr "User registered successfully!");
                                 ("userId", VOid i)]))).
Proof.
  split; [|apply register_response_shape].
  intros w body1 body2 u p1 p2 Hu1 Hu2 Hu Hp1 Hl1 Hp2 Hl2 Hnone Hfresh.
  assert (Hp : forall p, 6 <= String.length p ->
               negb (truthy (VStr u)) || negb (truthy (VStr p)) = false).
  { intros p Hl. simpl. destruct (String.eqb_spec u ""); [contradiction|].
    destruct (String.eqb_spec p ""); [subst p; simpl in Hl; lia|]. reflexivity. }
  assert (Hlong : forall p, 6 <= String.length p ->
               js_lt ToNumber_ext (length_of (VStr p)) (Fin 6) = false).
  { intros p Hl. rewrite password_length_test. apply Nat.ltb_ge. exact Hl. }
  unfold Mongo.serve, App.register.
  rewrite Hu1, Hu2, Hp1, Hp2, (Hp p1 Hl1), (Hp p2 Hl2), (Hlong p1 Hl1), (Hlong p2 Hl2).
  do 3 eexists. split.
  { rewrite run_try_await. simpl Mongo.mongo. rewrite Hnone. simpl fmap. cbv iota.
    rewrite run_try_await. simpl Mongo.mongo. cbv iota.
    rewrite run_try_await. simpl Mongo.mongo. cbv iota.
    rewrite run_try_await. simpl Mongo.mongo.
    unfold Mongo.store_insert. simpl. rewrite Hfresh. reflexivity. }
  split; [reflexivity|]. split.
  { rewrite run_try_await. simpl Mongo.mongo.
    edestruct (first_match_exists [("username", VStr u)]) as [e ->].
    { apply lookup_insert_eq. }
    { unfold Mongo.matches, Mongo.document, Mongo.field_matches. simpl.
      rewrite String.eqb_refl. reflexivity. }
    reflexivity. }
  reflexivity.
Qed.

End StoreProperties.

(** ** Evaluations

    The handlers run on concrete requests, with ids as 24 hexadecimal
    digits. *)

Section Evaluations.
Import Hex24.

Local Abbreviation post_items := (App.post_items no_coercion).
Local Abbreviation put_item := (App.put_item no_coercion).
Local Abbreviation register := (App.register no_coercion).

(** C1. An update whose body has only [name] does not leave [price] as it
    was: the request is answered 200 "updated" and the [price] of the stored
    item, 1.5 before the request, is [null] after it. *)
Theorem put_item_name_only_overwrites_price :
  let out := Hex24.serve (put_item pen_id [("name", VStr "Pen2")]) one_pen in
  Mongo.items one_pen !! parse pen_id
    = Some [("name", VStr "Pen"); ("price", VNum (Fin (3 # 2)))]
  /\ out.1 = Some (json 200 (updated pen_id))
  /\ Mongo.items out.2 !! parse pen_id
     = Some [("name", VStr "Pen2"); ("price", VNull)].
Proof. repeat split; vm_compute; reflexivity. Qed.

(** C2. An update with [price: 0] passes validation ([0] is falsy, so the
    price test is skipped) and is written: an item that satisfied the
    invariant is stored with a price that is not positive. *)
Theorem put_item_stores_price_zero :
  let out := Hex24.serve
               (put_item pen_id [("name", VStr "Pen"); ("price", VNum (Fin 0))])
               one_pen in
  (item_invariant <$> Mongo.items one_pen !! parse pen_id) = Some true
  /\ out.1 = Some (json 200 (updated pen_id))
  /\ Mongo.items out.2 !! parse pen_id
     = Some [("name", VStr "Pen"); ("price", VNum (Fin 0))]
  /\ (item_invariant <$> Mongo.items out.2 !! parse pen_id) = Some false.
Proof. repeat split; vm_compute; reflexivity. Qed.

(** C3. A create whose [name] is the number 5 is not refused: the rule of
    the specification rejects the body, yet the handler calls the store,
    answers 201 and the document is stored. *)
Theorem post_items_accepts_numeric_name :
  let reqBody := [("name", VNum (Fin 5)); ("price", VNum (Fin 1))] in
  let out := Hex24.serve (post_items reqBody) Hex24.empty in
  create_item_valid reqBody = false
  /\ out.1 = Some (json 201 (VObj [("name", VNum (Fin 5)); ("price", VNum (Fin 1));
                                   ("_id", VOid (Hex24.generate_id 0))]))
  /\ Mongo.items out.2 !! Hex24.generate_id 0
     = Some [("name", VNum (Fin 5)); ("price", VNum (Fin 1))].
Proof. repeat split; vm_compute; reflexivity. Qed.

(** C4. A three-character password is refused with 400 before any call, and
    the message sent states the rule backwards: "must be less than 6
    characters". *)
Theorem register_short_password_message :
  register (bob "abc")
  = Ret (json 400 (message "Password must be less than 6 characters")).
Proof. reflexivity. Qed.

End Evaluations.

(** ** The theorems at concrete requests *)

Section Instances.
Import Hex24.

Local Abbreviation post_items := (App.post_items no_coercion).
Local Abbreviation put_item := (App.put_item no_coercion).
Local Abbreviation register := (App.register no_coercion).

(** A malformed id on the three id-addressed routes. *)
Lemma malformed_id_400_without_store_witness :
  ObjectId_isValid "42" = false
  /\ get_item "42" = Ret (json 400 invalid_id)
  /\ put_item "42" pen = Ret (json 400 invalid_id)
  /\ delete_item "42" = Ret (json 400 invalid_id).
Proof.
  split; [reflexivity|].
  apply (malformed_id_400_without_store no_coercion "42" pen). reflexivity.
Defined.

(** An empty update of the stored pen. *)
Lemma put_item_empty_body_400_witness :
  exists r : response,
    status r = 400
    /\ put_item pen_id [] = Ret r
    /\ forall (W : Type) (env : environment W) (w : W),
         run env (put_item pen_id []) w = (Some r, w)
         /\ trace env (put_item pen_id []) w = [].
Proof. apply (put_item_empty_body_400 no_coercion pen_id []). reflexivity. Defined.

(** Renaming the stored pen: the store reports one match, one modification. *)
Lemma put_item_response_by_update_result_witness :
  run Hex24.mongo (put_item pen_id [("name", VStr "Pen2"); ("price", VNum (Fin 2))]) one_pen
  = (Some (json 200 (updated pen_id)),
     with_item [("name", VStr "Pen2"); ("price", VNum (Fin 2))]).
Proof.
  refine (proj2 (proj2 (put_item_response_by_update_result no_coercion
            pen_id [("name", VStr "Pen2"); ("price", VNum (Fin 2))]
            Mongo.state Hex24.mongo one_pen
            (with_item [("name", VStr "Pen2"); ("price", VNum (Fin 2))])
            {| matchedCount := 1; modifiedCount := 1 |} _ _ _)) _).
  - unfold update_item_valid. split; [reflexivity|]. split; [simpl; lia|].
    split; intros _; [reflexivity|split; reflexivity].
  - unfold Hex24.mongo, Mongo.mongo. simpl (get _ _). cbv iota.
    rewrite first_match_by_id. unfold one_pen, with_item, Mongo.coll, Mongo.items.
    change (ObjectId_new pen_id) with (parse pen_id).
    rewrite lookup_singleton_eq. simpl fmap. cbv iota beta.
    unfold Mongo.with_coll, Mongo.coll, Mongo.items, Mongo.users, Mongo.clock.
    rewrite insert_singleton_eq. reflexivity.
  - simpl. lia.
  - simpl. lia.
Defined.

(** Creating a pen in the empty store and reading it back; deleting the
    stored pen twice. *)
Lemma create_get_round_trip_and_delete_twice_witness :
  (exists (r1 r2 : response) (w1 : Mongo.state),
      Hex24.serve (post_items pen) Hex24.empty = (Some r1, w1)
      /\ status r1 = 201
      /\ member "_id" (body r1) = VOid (Hex24.generate_id 0)
      /\ Hex24.serve (get_item pen_id) w1 = (Some r2, w1)
      /\ status r2 = 200
      /\ member "name" (body r2) = VStr "Pen"
      /\ member "price" (body r2) = VNum (Fin (3 # 2)))
  /\ (exists (d1 d2 : response) (w1 w2 : Mongo.state),
      Hex24.serve (delete_item pen_id) one_pen = (Some d1, w1)
      /\ status d1 = 200
      /\ Hex24.serve (delete_item pen_id) w1 = (Some d2, w2)
      /\ status d2 = 404).
Proof.
  apply (create_get_round_trip_and_delete_twice no_coercion
           Hex24.generate_id Hex24.generate_salt Hex24.hash
           Hex24.empty pen "Pen" (Fin (3 # 2)) one_pen pen_id
           [("name", VStr "Pen"); ("price", VNum (Fin (3 # 2)))]).
  - reflexivity.
  - discriminate.
  - reflexivity.
  - reflexivity.
  - reflexivity.
  - reflexivity.
  - reflexivity.
  - reflexivity.
  - reflexivity.
Defined.

(** Registering bob twice in the empty store. *)
Lemma register_twice_and_no_password_in_response_witness :
  exists (r1 r2 : response) (w1 : Mongo.state),
    Hex24.serve (register (bob "secret1")) Hex24.empty = (Some r1, w1)
    /\ status r1 = 201
    /\ Hex24.serve (register (bob "hunter22")) w1 = (Some r2, w1)
    /\ status r2 = 409.
Proof.
  apply (proj1 (register_twice_and_no_password_in_response no_coercion
                  Hex24.generate_id Hex24.generate_salt Hex24.hash)
           Hex24.empty (bob "secret1") (bob "hunter22") "bob" "secret1" "hunter22").
  - reflexivity.
  - reflexivity.
  - discriminate.
  - reflexivity.
  - simpl. lia.
  - reflexivity.
  - simpl. lia.
  - reflexivity.
  - reflexivity.
Defined.

End Instances.

(** * Further properties of the routes *)

(** ** What each route accepts and answers, under any environment *)

Section RouteBehaviour.
Context `{ObjectIdLib}.
Variable ToNumber_ext : value -> option number.

Local Abbreviation post_items := (App.post_items ToNumber_ext).
Local Abbreviation put_item := (App.put_item ToNumber_ext).
Local Abbreviation register := (App.register ToNumber_ext).

(** The price test of both item routes only lets a number above zero by;
    the coercion of other values is never consulted. *)
Lemma price_test (v : value) :
  negb (String.eqb (typeof v) "number") || js_le ToNumber_ext v (Fin 0)
  = negb (positive_number v).
Proof.
  destruct v as [| |b|n|s|l|o|i]; try reflexivity.
  destruct n as [q| |]; try reflexivity.
  unfold js_le. simpl. destruct (Qle_bool q 0); reflexivity.
Qed.

Lemma name_test (v : value) : String.eqb (typeof v) "string" = is_string v.
Proof. destruct v; reflexivity. Qed.

Lemma update_passes_tests (requestedID : string) (reqBody : object) :
  update_passes requestedID reqBody = true ->
  ObjectId_isValid requestedID = true
  /\ Nat.eqb (length (Object_keys reqBody)) 0 = false
  /\ truthy (get "name" reqBody)
     && negb (String.eqb (typeof (get "name" reqBody)) "string") = false
  /\ truthy (get "price" reqBody)
     && (negb (String.eqb (typeof (get "price" reqBody)) "number")
         || js_le ToNumber_ext (get "price" reqBody) (Fin 0)) = false.
Proof.
  unfold update_passes. rewrite price_test, name_test.
  destruct (ObjectId_isValid requestedID); [|discriminate].
  destruct (Nat.eqb (length (Object_keys reqBody)) 0); [discriminate|].
  destruct (truthy (get "name" reqBody));
    destruct (is_string (get "name" reqBody)); try discriminate;
    destruct (truthy (get "price" reqBody));
    destruct (positive_number (get "price" reqBody)); try discriminate; auto.
Qed.

(** X1. [POST /items] on any body: it is let through exactly when [name] is
    truthy and [price] is a number above zero; then the answer is 201 with
    [{name, price, _id}] if the insert is fulfilled and 500 if it is rejected;
    otherwise the answer is 400 and the state is untouched. *)
Theorem post_items_behaviour
    (reqBody : object) (W : Type) (env : environment W) (w : W) :
  run env (post_items reqBody) w =
  if create_passes reqBody then
    match env _ (insertOne itemsCollection
                   [("name", get "name" reqBody); ("price", get "price" reqBody)]) w with
    | (Fulfilled result, w') =>
        (Some (json 201 (VObj [("name", get "name" reqBody);
                               ("price", get "price" reqBody);
                               ("_id", VOid (insertedId result))])), w')
    | (Rejected, w') => (Some (json 500 (message "Failed to create item.")), w')
    end
  else
    (Some (json 400 (message
       "Name (string) and positive Price (number) are required!")), w).
Proof.
  unfold App.post_items, create_passes. simpl get.
  rewrite <- orb_assoc, price_test.
  destruct (truthy (get "name" reqBody));
    destruct (positive_number (get "price" reqBody)); try reflexivity.
  simpl orb. cbv iota. rewrite run_try_await.
  destruct (env _ _ w) as [[[i]|] w']; reflexivity.
Qed.

(** X2. [PUT /items/:id] on any request: it is let through exactly when the
    id is well formed, the body has a property, [name] is falsy or a string
    and [price] is falsy or a number above zero (so [price: 0], [name: ""]
    and [null] pass); then the answer follows the result of [updateOne], or is
    500 if the call is rejected; otherwise the handler answers 400 at once. *)
Theorem put_item_behaviour
    (requestedID : string) (reqBody : object)
    (W : Type) (env : environment W) (w : W) :
  if update_passes requestedID reqBody then
    run env (put_item requestedID reqBody) w =
    match env _ (updateOne_set itemsCollection
                   [("_id", VOid (ObjectId_new requestedID))]
                   [("name", get "name" reqBody); ("price", get "price" reqBody)]) w with
    | (Fulfilled result, w') => (Some (update_answer requestedID result), w')
    | (Rejected, w') =>
        (Some (json 500 (message "Failed to update item due to server error.")), w')
    end
  else
    exists m : string, put_item requestedID reqBody = Ret (json 400 (message m)).
Proof.
  destruct (update_passes requestedID reqBody) eqn:E.
  - apply update_passes_tests in E as (Hid & Hbody & Hname & Hprice).
    unfold App.put_item. rewrite Hid, Hbody, Hname, Hprice. simpl negb. cbv iota.
    rewrite run_try_await. unfold update_answer.
    destruct (env _ _ w) as [[r|] w']; [|reflexivity].
    destruct (Nat.eqb (matchedCount r) 0); [reflexivity|].
    destruct (Nat.eqb (modifiedCount r) 0); reflexivity.
  - unfold update_passes in E. unfold App.put_item.
    rewrite price_test, name_test.
    destruct (ObjectId_isValid requestedID); [|eexists; reflexivity].
    destruct (Nat.eqb (length (Object_keys reqBody)) 0); [eexists; reflexivity|].
    destruct (truthy (get "name" reqBody));
      destruct (is_string (get "name" reqBody)); try (eexists; reflexivity);
      destruct (truthy (get "price" reqBody));
      destruct (positive_number (get "price" reqBody));
      try (eexists; reflexivity); discriminate E.
Qed.

(** X3. [GET /items/:id]: a malformed id is answered 400 with no call; else
    exactly one [findOne] on that id is made and the answer is 200 with the
    document found, 404 when none is found, 500 when the call is rejected. *)
Theorem get_item_behaviour
    (requestedID : string) (W : Type) (env : environment W) (w : W) :
  let query := findOne itemsCollection [("_id", VOid (ObjectId_new requestedID))] in
  if ObjectId_isValid requestedID then
    trace env (get_item requestedID) w = [existT _ query]
    /\ run env (get_item requestedID) w =
       match env _ query w with
       | (Fulfilled (Some item), w') => (Some (json 200 (VObj item)), w')
       | (Fulfilled None, w') => (Some (json 404 (message "Item not found!")), w')
       | (Rejected, w') =>
           (Some (json 500 (message "Failed to retrieve item due to server error.")), w')
       end
  else
    get_item requestedID = Ret (json 400 invalid_id).
Proof.
  intros query. unfold get_item. fold query.
  destruct (ObjectId_isValid requestedID); [|reflexivity]. simpl negb. cbv iota.
  rewrite trace_try_await, run_try_await.
  destruct (env _ query w) as [[[item|]|] w']; split; reflexivity.
Qed.

(** X4. [DELETE /items/:id]: a malformed id is answered 400 with no call;
    else exactly one [deleteOne] on that id is made and the answer is 200 only
    when the store reports exactly one deletion, 404 for any other count, 500
    when the call is rejected. *)
Theorem delete_item_behaviour
    (requestedID : string) (W : Type) (env : environment W) (w : W) :
  let removal := deleteOne itemsCollection [("_id", VOid (ObjectId_new requestedID))] in
  if ObjectId_isValid requestedID then
    trace env (delete_item requestedID) w = [existT _ removal]
    /\ run env (delete_item requestedID) w =
       match env _ removal w with
       | (Fulfilled result, w') =>
           (Some (if Nat.eqb (deletedCount result) 1
                  then json 200 (message "Item has been deleted!")
                  else json 404 (message "Item not found!")), w')
       | (Rejected, w') =>
           (Some (json 500 (message "Failed to delete item due to server error.")), w')
       end
  else
    delete_item requestedID = Ret (json 400 invalid_id).
Proof.
  intros removal. unfold delete_item. fold removal.
  destruct (ObjectId_isValid requestedID); [|reflexivity]. simpl negb. cbv iota.
  rewrite trace_try_await, run_try_await.
  destruct (env _ removal w) as [[r|] w']; [|split; reflexivity].
  destruct (Nat.eqb (deletedCount r) 1); split; reflexivity.
Qed.

(** X5. [GET /items]: one [find({})] on the items collection; the answer is
    200 with the array of the documents returned, in the order returned, or
    500 when the call is rejected. *)
Theorem get_items_behaviour (W : Type) (env : environment W) (w : W) :
  trace env get_items w = [existT _ (find_toArray itemsCollection [])]
  /\ run env get_items w =
     match env _ (find_toArray itemsCollection []) w with
     | (Fulfilled allItems, w') => (Some (json 200 (VArr (map VObj allItems))), w')
     | (Rejected, w') =>
         (Some (json 500 (message "Failed to retrieve items due to server error.")), w')
     end.
Proof.
  unfold get_items. rewrite trace_try_await, run_try_await.
  destruct (env _ _ w) as [[l|] w']; split; reflexivity.
Qed.

End RouteBehaviour.

(** ** Every route answers, and keeps to its collection *)

Section RouteDiscipline.
Context `{ObjectIdLib}.
Variable ToNumber_ext : value -> option number.
Context {W : Type} (env : environment W).

Local Abbreviation post_items := (App.post_items ToNumber_ext).
Local Abbreviation put_item := (App.put_item ToNumber_ext).
Local Abbreviation register := (App.register ToNumber_ext).

Ltac case_ifs :=
  repeat match goal with
         | |- context [if ?b then _ else _] => destruct b
         end.


Ltac listed :=
  simpl; repeat constructor; cbv [call_collection projT2]; congruence.

(** The calls of the five item routes all address the items collection. *)
Lemma trace_get_items (w : W) :
  Forall (fun c => call_collection c = Some itemsCollection) (trace env get_items w).
Proof.
  unfold get_items. rewrite trace_try_await.
  destruct (env _ _ w) as [[l|] w']; listed.
Qed.

Lemma trace_post_items (reqBody : object) (w : W) :
  Forall (fun c => call_collection c = Some itemsCollection)
         (trace env (post_items reqBody) w).
Proof.
  unfold App.post_items. case_ifs; [listed|].
  rewrite trace_try_await. destruct (env _ _ w) as [[r|] w']; listed.
Qed.

Lemma trace_get_item (requestedID : string) (w : W) :
  Forall (fun c => call_collection c = Some itemsCollection)
         (trace env (get_item requestedID) w).
Proof.
  unfold get_item. case_ifs; [listed|].
  rewrite trace_try_await. destruct (env _ _ w) as [[[item|]|] w']; listed.
Qed.

Lemma trace_delete_item (requestedID : string) (w : W) :
  Forall (fun c => call_collection c = Some itemsCollection)
         (trace env (delete_item requestedID) w).
Proof.
  unfold delete_item. case_ifs; [listed|].
  rewrite trace_try_await. destruct (env _ _ w) as [[r|] w']; case_ifs; listed.
Qed.

Lemma trace_put_item (requestedID : string) (reqBody : object) (w : W) :
  Forall (fun c => call_collection c = Some itemsCollection)
         (trace env (put_item requestedID reqBody) w).
Proof.
  unfold App.put_item. case_ifs; try listed.
  rewrite trace_try_await. destruct (env _ _ w) as [[r|] w']; case_ifs; listed.
Qed.

(** The calls of the registration route never address the items
    collection, and there are at most four of them. *)
Lemma trace_register (reqBody : object) (w : W) :
  Forall (fun c => call_collection c <> Some itemsCollection)
         (trace env (register reqBody) w)
  /\ length (trace env (register reqBody) w) <= 4.
Proof.
  unfold App.register. case_ifs; try (split; [listed|simpl; lia]).
  rewrite trace_try_await.
  destruct (env _ _ w) as [[[user|]|] w1]; try (split; [listed|simpl; lia]).
  rewrite trace_try_await.
  destruct (env _ _ w1) as [[salt|] w2]; try (split; [listed|simpl; lia]).
  rewrite trace_try_await.
  destruct (env _ _ w2) as [[hashed|] w3]; try (split; [listed|simpl; lia]).
  rewrite trace_try_await.
  destruct (env _ _ w3) as [[r|] w4]; split; try listed; simpl; lia.
Qed.


(** X7. The item routes only ever call the items collection, at most once
    per request; the registration route never calls the items collection and
    makes at most four calls. *)
Theorem routes_keep_to_their_collection (w : W) :
  (forall p : prog response,
      p = get_items
      \/ (exists reqBody, p = post_items reqBody)
      \/ (exists requestedID, p = get_item requestedID)
      \/ (exists requestedID, p = delete_item requestedID)
      \/ (exists requestedID reqBody, p = put_item requestedID reqBody) ->
      Forall (fun c => call_collection c = Some itemsCollection) (trace env p w)
      /\ length (trace env p w) <= 1)
  /\ (forall reqBody,
      Forall (fun c => call_collection c <> Some itemsCollection)
             (trace env (register reqBody) w)
      /\ length (trace env (register reqBody) w) <= 4).
Proof.
  split; [|intros reqBody; apply trace_register].
  intros p [->|[[b ->]|[[i ->]|[[i ->]|(i & b & ->)]]]]; split.
  - apply trace_get_items.
  - unfold get_items. rewrite trace_try_await.
    destruct (env _ _ w) as [[l|] w']; simpl; lia.
  - apply trace_post_items.
  - unfold App.post_items. case_ifs; [simpl; lia|].
    rewrite trace_try_await. destruct (env _ _ w) as [[r|] w']; simpl; lia.
  - apply trace_get_item.
  - unfold get_item. case_ifs; [simpl; lia|].
    rewrite trace_try_await. destruct (env _ _ w) as [[[item|]|] w']; simpl; lia.
  - apply trace_delete_item.
  - unfold delete_item. case_ifs; [simpl; lia|].
    rewrite trace_try_await. destruct (env _ _ w) as [[r|] w']; case_ifs; simpl; lia.
  - apply trace_put_item.
  - unfold App.put_item. case_ifs; try (simpl; lia).
    rewrite trace_try_await. destruct (env _ _ w) as [[r|] w']; case_ifs; simpl; lia.
Qed.

End RouteDiscipline.

(** ** The registration route, step by step *)

Section RegisterBehaviour.
Context `{ObjectIdLib}.
Variable ToNumber_ext : value -> option number.
Context {W : Type} (env : environment W).

Local Abbreviation register := (App.register ToNumber_ext).

(** X8. A missing (falsy) [username] or [password] is answered 400 with the
    "enter a username and password" message before the length rule is looked
    at and before any call: so an empty password gets this message, not the
    one about the length. *)
Theorem register_missing_credentials_400 (reqBody : object) :
  truthy (get "username" reqBody) = false
  \/ truthy (get "password" reqBody) = false ->
  register reqBody =
  Ret (json 400 (message "Enter a username and password to register.")).
Proof.
  intros Hmissing. unfold App.register.
  destruct Hmissing as [-> | ->]; [reflexivity|].
  rewrite orb_true_r. reflexivity.
Qed.

(** X9. When the pre-check query finds a user, the route answers 409 and
    stops there: the query is its only call, so no salt is generated, nothing
    is hashed and nothing is inserted. *)
Theorem register_conflict_stops_at_the_query
    (reqBody user : object) (w w' : W) :
  truthy (get "username" reqBody) = true ->
  truthy (get "password" reqBody) = true ->
  js_lt ToNumber_ext (length_of (get "password" reqBody)) (Fin 6) = false ->
  env _ (findOne usersCollection [("username", get "username" reqBody)]) w
    = (Fulfilled (Some user), w') ->
  run env (register reqBody) w
    = (Some (json 409 (message "User already exists pls try another name!")), w')
  /\ trace env (register reqBody) w
     = [existT _ (findOne usersCollection [("username", get "username" reqBody)])].
Proof.
  intros Hu Hp Hlen Hfound. unfold App.register. rewrite Hu, Hp, Hlen.
  simpl negb. simpl orb. cbv iota.
  rewrite run_try_await, trace_try_await, Hfound. split; reflexivity.
Qed.

(** X10. A registration that goes through makes four calls in this order:
    the query on [username], [bcrypt.genSalt(10)], [bcrypt.hash] of the
    password with the salt just generated, and the insert of
    [{username, password}] where [password] is the hash just computed.  The
    answer is 201 with the id the insert returned. *)
Theorem register_success_chain
    (reqBody : object) (w w1 w2 w3 w4 : W)
    (salt hashed : string) (result : InsertOneResult) :
  truthy (get "username" reqBody) = true ->
  truthy (get "password" reqBody) = true ->
  js_lt ToNumber_ext (length_of (get "password" reqBody)) (Fin 6) = false ->
  let query := findOne usersCollection [("username", get "username" reqBody)] in
  let insertion := insertOne usersCollection
                     [("username", get "username" reqBody);
                      ("password", VStr hashed)] in
  env _ query w = (Fulfilled None, w1) ->
  env _ (bcrypt_genSalt 10) w1 = (Fulfilled salt, w2) ->
  env _ (bcrypt_hash (get "password" reqBody) salt) w2 = (Fulfilled hashed, w3) ->
  env _ insertion w3 = (Fulfilled result, w4) ->
  run env (register reqBody) w
    = (Some (json 201 (VObj [("message", VStr "User registered successfully!");
                             ("userId", VOid (insertedId result))])), w4)
  /\ trace env (register reqBody) w
     = [existT _ query; existT _ (bcrypt_genSalt 10);
        existT _ (bcrypt_hash (get "password" reqBody) salt);
        existT _ insertion].
Proof.
  intros Hu Hp Hlen query insertion Hquery Hsalt Hhash Hinsert.
  unfold App.register. rewrite Hu, Hp, Hlen. simpl negb. simpl orb. cbv iota.
  fold query. split.
  - rewrite run_try_await, Hquery. cbv iota beta.
    rewrite run_try_await, Hsalt. cbv iota beta.
    rewrite run_try_await, Hhash. cbv iota beta.
    rewrite run_try_await. fold insertion. rewrite Hinsert. reflexivity.
  - rewrite trace_try_await, Hquery. cbv iota beta.
    rewrite trace_try_await, Hsalt. cbv iota beta.
    rewrite trace_try_await, Hhash. cbv iota beta.
    rewrite trace_try_await. fold insertion. rewrite Hinsert. reflexivity.
Qed.

(** X11. Whichever of the four calls is rejected (the query, the salt, the
    hash or the insert), a registration that passed validation is answered
    500 with the generic message. *)
Theorem register_rejection_is_500 (reqBody : object) (w : W) :
  truthy (get "username" reqBody) = true ->
  truthy (get "password" reqBody) = true ->
  js_lt ToNumber_ext (length_of (get "password" reqBody)) (Fin 6) = false ->
  let query := findOne usersCollection [("username", get "username" reqBody)] in
  (exists w1, env _ query w = (Rejected, w1))
  \/ (exists w1 w2,
        env _ query w = (Fulfilled None, w1)
        /\ env _ (bcrypt_genSalt 10) w1 = (Rejected, w2))
  \/ (exists w1 w2 w3 salt,
        env _ query w = (Fulfilled None, w1)
        /\ env _ (bcrypt_genSalt 10) w1 = (Fulfilled salt, w2)
        /\ env _ (bcrypt_hash (get "password" reqBody) salt) w2 = (Rejected, w3))
  \/ (exists w1 w2 w3 w4 salt hashed,
        env _ query w = (Fulfilled None, w1)
        /\ env _ (bcrypt_genSalt 10) w1 = (Fulfilled salt, w2)
        /\ env _ (bcrypt_hash (get "password" reqBody) salt) w2 = (Fulfilled hashed, w3)
        /\ env _ (insertOne usersCollection
                    [("username", get "username" reqBody);
                     ("password", VStr hashed)]) w3 = (Rejected, w4)) ->
  exists w',
    run env (register reqBody) w
    = (Some (json 500 (message "Server error during registration.")), w').
Proof.
  intros Hu Hp Hlen query Hrejected.
  unfold App.register. rewrite Hu, Hp, Hlen. simpl negb. simpl orb. cbv iota.
  fold query. rewrite run_try_await.
  destruct Hrejected as [(w1 & Hq)
    | [(w1 & w2 & Hq & Hs)
    | [(w1 & w2 & w3 & salt & Hq & Hs & Hh)
    | (w1 & w2 & w3 & w4 & salt & hashed & Hq & Hs & Hh & Hi)]]];
    rewrite Hq; cbv iota beta.
  - eexists; reflexivity.
  - rewrite run_try_await, Hs. eexists; reflexivity.
  - rewrite run_try_await, Hs. cbv iota beta.
    rewrite run_try_await, Hh. eexists; reflexivity.
  - rewrite run_try_await, Hs. cbv iota beta.
    rewrite run_try_await, Hh. cbv iota beta.
    rewrite run_try_await, Hi. eexists; reflexivity.
Qed.

End RegisterBehaviour.

(** ** Objects: reading after writing *)

Section ObjectLemmas.
Context `{ObjectIdLib}.

Lemma get_set_eq (k : string) (v : value) (o : object) : get k (set k v o) = v.
Proof.
  induction o as [|[k' v'] o IH]; simpl.
  - rewrite String.eqb_refl. reflexivity.
  - destruct (String.eqb k k') eqn:E; simpl; rewrite E; [reflexivity|exact IH].
Qed.

Lemma get_set_ne (k k' : string) (v : value) (o : object) :
  k <> k' -> get k' (set k v o) = get k' o.
Proof.
  intros Hne. induction o as [|[k0 v0] o IH]; simpl.
  - destruct (String.eqb_spec k' k); [congruence|reflexivity].
  - destruct (String.eqb_spec k k0) as [->|Hk]; simpl.
    + destruct (String.eqb_spec k' k0); [congruence|reflexivity].
    + destruct (String.eqb k' k0); [reflexivity|exact IH].
Qed.

Lemma set_get_id (k : string) (o : object) :
  get k o <> VUndefined -> set k (get k o) o = o.
Proof.
  induction o as [|[k0 v0] o IH]; simpl; [congruence|].
  destruct (String.eqb k k0); [reflexivity|].
  intros Hdef. rewrite (IH Hdef). reflexivity.
Qed.

Lemma num_eqb_refl (n : number) : num_eqb n n = true.
Proof. destruct n; simpl; [apply Qeq_bool_iff; reflexivity| |]; reflexivity. Qed.

Lemma value_eqb_refl : forall v : value, value_eqb v v = true.
Proof.
  fix IH 1. intros [| |b|n|s|l|o|i]; simpl; try reflexivity.
  - destruct b; reflexivity.
  - apply num_eqb_refl.
  - apply String.eqb_refl.
  - induction l as [|x l IHl]; [reflexivity|]. rewrite IH, IHl. reflexivity.
  - induction o as [|[k x] o IHo]; [reflexivity|].
    rewrite String.eqb_refl, IH, IHo. reflexivity.
  - apply bool_decide_eq_true. reflexivity.
Qed.

Lemma bson_defined (v : value) : Mongo.bson v <> VUndefined.
Proof. destruct v; discriminate. Qed.

Lemma filter_all {A : Type} (f : A -> bool) (l : list A) :
  (forall x, f x = true) -> List.filter f l = l.
Proof.
  intros Hall. induction l as [|x l IH]; simpl; [reflexivity|].
  rewrite Hall, IH. reflexivity.
Qed.

End ObjectLemmas.

(** ** The item routes against the reference store *)

Section ItemsOnStore.
Context `{ObjectIdLib}.
Variable ToNumber_ext : value -> option number.
Variable generate_id : nat -> ObjectId.
Variable generate_salt : nat -> string.
Variable hash : string -> string -> string.

Local Abbreviation post_items := (App.post_items ToNumber_ext).
Local Abbreviation put_item := (App.put_item ToNumber_ext).
Local Abbreviation serve := (Mongo.serve generate_id generate_salt hash).

(** X12. A get by a well-formed id reads the store and changes nothing: it
    answers 200 with the document stored under that id, its [_id] first then
    its fields, or 404 when no document has that id. *)
Theorem get_item_reads_stored_document (requestedID : string) (w : Mongo.state) :
  ObjectId_isValid requestedID = true ->
  serve (get_item requestedID) w =
  (Some match Mongo.items w !! ObjectId_new requestedID with
        | Some f => json 200 (VObj (("_id", VOid (ObjectId_new requestedID)) :: f))
        | None => json 404 (message "Item not found!")
        end, w).
Proof.
  intros Hid. unfold Mongo.serve, get_item. rewrite Hid. simpl negb. cbv iota.
  rewrite run_try_await. simpl Mongo.mongo. rewrite first_match_by_id. simpl.
  destruct (Mongo.items w !! ObjectId_new requestedID); reflexivity.
Qed.

(** X13. A delete by a well-formed id answers 200 if a document has that id
    and 404 if none has; either way the items collection afterwards is the one
    before without that id, every other item is kept, and the users collection
    is untouched. *)
Theorem delete_item_removes_only_that_item (requestedID : string) (w : Mongo.state) :
  ObjectId_isValid requestedID = true ->
  exists (r : response) (w' : Mongo.state),
    serve (delete_item requestedID) w = (Some r, w')
    /\ status r = match Mongo.items w !! ObjectId_new requestedID with
                  | Some _ => 200
                  | None => 404
                  end
    /\ Mongo.items w' = delete (ObjectId_new requestedID) (Mongo.items w)
    /\ (forall j, j <> ObjectId_new requestedID ->
                  Mongo.items w' !! j = Mongo.items w !! j)
    /\ Mongo.users w' = Mongo.users w.
Proof.
  intros Hid. unfold Mongo.serve, delete_item. rewrite Hid. simpl negb. cbv iota.
  destruct (Mongo.items w !! ObjectId_new requestedID) as [f|] eqn:L.
  - do 2 eexists. split.
    { rewrite run_try_await. simpl Mongo.mongo. rewrite first_match_by_id.
      simpl. rewrite L. reflexivity. }
    simpl. repeat split; try reflexivity.
    intros j Hj. apply lookup_delete_ne. congruence.
  - do 2 eexists. split.
    { rewrite run_try_await. simpl Mongo.mongo. rewrite first_match_by_id.
      simpl. rewrite L. reflexivity. }
    simpl. repeat split; try reflexivity.
    symmetry. apply delete_id. exact L.
Qed.

(** X14. After a delete by a well-formed id, whatever it answered, a get by
    the same id answers 404. *)
Theorem get_after_delete_is_404 (requestedID : string) (w : Mongo.state) :
  ObjectId_isValid requestedID = true ->
  let w' := (serve (delete_item requestedID) w).2 in
  serve (get_item requestedID) w' = (Some (json 404 (message "Item not found!")), w').
Proof.
  intros Hid w'.
  assert (Hgone : Mongo.items w' !! ObjectId_new requestedID = None).
  { subst w'. unfold Mongo.serve, delete_item. rewrite Hid. simpl negb. cbv iota.
    rewrite run_try_await. simpl Mongo.mongo. rewrite first_match_by_id. simpl.
    destruct (Mongo.items w !! ObjectId_new requestedID) eqn:L; simpl.
    - apply lookup_delete_eq.
    - exact L. }
  unfold Mongo.serve, get_item. rewrite Hid. simpl negb. cbv iota.
  rewrite run_try_await. simpl Mongo.mongo. rewrite first_match_by_id. simpl.
  rewrite Hgone. reflexivity.
Qed.

(** X15. A valid update of a stored item is answered 200 and rewrites both
    [name] and [price] of that item with what the body holds, [null] for a
    property the body does not have; every other property of the item, every
    other item and the users collection are left as they were. *)
Theorem put_item_overwrites_name_and_price
    (requestedID : string) (reqBody f : object) (w : Mongo.state) :
  update_passes requestedID reqBody = true ->
  Mongo.items w !! ObjectId_new requestedID = Some f ->
  exists (r : response) (f' : object) (w' : Mongo.state),
    serve (put_item requestedID reqBody) w = (Some r, w')
    /\ status r = 200
    /\ Mongo.items w' = <[ObjectId_new requestedID := f']> (Mongo.items w)
    /\ Mongo.users w' = Mongo.users w
    /\ get "name" f' = Mongo.bson (get "name" reqBody)
    /\ get "price" f' = Mongo.bson (get "price" reqBody)
    /\ (forall k, k <> "name" -> k <> "price" -> get k f' = get k f).
Proof.
  intros Hpass Hitem.
  apply (update_passes_tests ToNumber_ext) in Hpass as (Hid & Hbody & Hname & Hprice).
  exists (if object_eqb f (set "price" (Mongo.bson (get "price" reqBody))
                            (set "name" (Mongo.bson (get "name" reqBody)) f))
          then json 200 (message
                 "Item found, but no changes applied (data was identical).")
          else json 200 (VObj [("message", VStr "Item updated successfully!");
                               ("updatedId", VStr requestedID)])).
  exists (set "price" (Mongo.bson (get "price" reqBody))
            (set "name" (Mongo.bson (get "name" reqBody)) f)).
  eexists. split.
  { unfold Mongo.serve, App.put_item. rewrite Hid, Hbody, Hname, Hprice.
    simpl negb. cbv iota.
    rewrite run_try_await. simpl Mongo.mongo. rewrite first_match_by_id.
    simpl Mongo.coll. rewrite Hitem. simpl.
    destruct (object_eqb f _); reflexivity. }
  split; [destruct (object_eqb f _); reflexivity|].
  split; [reflexivity|]. split; [reflexivity|].
  split; [|split].
  - rewrite get_set_ne by discriminate. apply get_set_eq.
  - apply get_set_eq.
  - intros k Hn Hp. rewrite !get_set_ne by congruence. reflexivity.
Qed.

(** X16. A valid update that carries the values the stored item already has
    for both [name] and [price] is answered 200 with the "no changes"
    message and leaves the whole store as it was. *)
Theorem put_item_identical_changes_nothing
    (requestedID : string) (reqBody f : object) (w : Mongo.state) :
  update_passes requestedID reqBody = true ->
  Mongo.items w !! ObjectId_new requestedID = Some f ->
  Mongo.bson (get "name" reqBody) = get "name" f ->
  Mongo.bson (get "price" reqBody) = get "price" f ->
  serve (put_item requestedID reqBody) w =
  (Some (json 200 (message
     "Item found, but no changes applied (data was identical).")), w).
Proof.
  intros Hpass Hitem Hn Hp.
  apply (update_passes_tests ToNumber_ext) in Hpass as (Hid & Hbody & Hname & Hprice).
  assert (Hsame : set "price" (Mongo.bson (get "price" reqBody))
                    (set "name" (Mongo.bson (get "name" reqBody)) f) = f).
  { rewrite Hn, set_get_id by (rewrite <- Hn; apply bson_defined).
    rewrite Hp, set_get_id by (rewrite <- Hp; apply bson_defined). reflexivity. }
  unfold Mongo.serve, App.put_item. rewrite Hid, Hbody, Hname, Hprice.
  simpl negb. cbv iota.
  rewrite run_try_await. simpl Mongo.mongo. rewrite first_match_by_id.
  simpl Mongo.coll. rewrite Hitem. simpl.
  change (Mongo.apply_set [("name", get "name" reqBody);
                           ("price", get "price" reqBody)] f)
    with (set "price" (Mongo.bson (get "price" reqBody))
            (set "name" (Mongo.bson (get "name" reqBody)) f)).
  rewrite Hsame. unfold object_eqb. rewrite value_eqb_refl. simpl.
  rewrite (insert_id _ _ _ Hitem).
  destruct w; reflexivity.
Qed.

(** X17. A well-formed id that no stored item has: get, delete and a valid
    update all answer 404 and leave the store as it was. *)
Theorem unknown_id_is_404_and_changes_nothing
    (requestedID : string) (reqBody : object) (w : Mongo.state) :
  ObjectId_isValid requestedID = true ->
  Mongo.items w !! ObjectId_new requestedID = None ->
  let not_found := (Some (json 404 (message "Item not found!")), w) in
  serve (get_item requestedID) w = not_found
  /\ serve (delete_item requestedID) w = not_found
  /\ (update_passes requestedID reqBody = true ->
      serve (put_item requestedID reqBody) w = not_found).
Proof.
  intros Hid Hnone not_found. subst not_found. unfold Mongo.serve.
  split; [|split].
  - unfold get_item. rewrite Hid. simpl negb. cbv iota.
    rewrite run_try_await. simpl Mongo.mongo. rewrite first_match_by_id.
    simpl. rewrite Hnone. reflexivity.
  - unfold delete_item. rewrite Hid. simpl negb. cbv iota.
    rewrite run_try_await. simpl Mongo.mongo. rewrite first_match_by_id.
    simpl. rewrite Hnone. reflexivity.
  - intros Hpass.
    apply (update_passes_tests ToNumber_ext) in Hpass as (_ & Hbody & Hname & Hprice).
    unfold App.put_item. rewrite Hid, Hbody, Hname, Hprice. simpl negb. cbv iota.
    rewrite run_try_await. simpl Mongo.mongo. rewrite first_match_by_id.
    simpl. rewrite Hnone. reflexivity.
Qed.

(** X18. Listing the items changes nothing and answers 200 with one document
    per stored item: as many as the collection holds, and a document is in
    the list exactly when it is stored, printed with its [_id] first. *)
Theorem get_items_lists_every_item (w : Mongo.state) :
  exists docs : list value,
    serve get_items w = (Some (json 200 (VArr docs)), w)
    /\ length docs = size (Mongo.items w)
    /\ (forall i f, Mongo.items w !! i = Some f
                    <-> In (VObj (("_id", VOid i) :: f)) docs).
Proof.
  eexists. split.
  { unfold Mongo.serve, get_items. rewrite run_try_await. simpl Mongo.mongo.
    rewrite filter_all by reflexivity. reflexivity. }
  split.
  - rewrite !length_map. apply length_map_to_list.
  - intros i f. rewrite <- elem_of_map_to_list, <- list_elem_of_In. split.
    + intros Hin. apply list_elem_of_In in Hin. apply list_elem_of_In.
      apply in_map_iff. exists (("_id", VOid i) :: f). split; [reflexivity|].
      apply in_map_iff. exists (i, f). split; [reflexivity|exact Hin].
    + intros Hin. apply list_elem_of_In in Hin.
      apply in_map_iff in Hin as (d & Hd & Hin).
      apply in_map_iff in Hin as ([j g] & Hjg & Hin).
      subst d. unfold Mongo.document in Hd. simpl in Hd.
      injection Hd as -> ->. apply list_elem_of_In. exact Hin.
Qed.

End ItemsOnStore.

(** ** Registration against the reference store, and what a route leaves alone *)

Section UsersOnStore.
Context `{ObjectIdLib}.
Variable ToNumber_ext : value -> option number.
Variable generate_id : nat -> ObjectId.
Variable generate_salt : nat -> string.
Variable hash : string -> string -> string.

Local Abbreviation post_items := (App.post_items ToNumber_ext).
Local Abbreviation put_item := (App.put_item ToNumber_ext).
Local Abbreviation register := (App.register ToNumber_ext).
Local Abbreviation serve := (Mongo.serve generate_id generate_salt hash).
Local Abbreviation mongo := (Mongo.mongo generate_id generate_salt hash).

(** X19. A registration with a free username and a password of six
    characters or more stores one new user whose [password] field is the
    bcrypt hash of the submitted password under the salt generated for this
    request; it answers 201 with the new id and leaves the items alone. *)
Theorem register_stores_the_hash
    (reqBody : object) (u p : string) (w : Mongo.state) :
  get "username" reqBody = VStr u -> u <> "" ->
  get "password" reqBody = VStr p -> 6 <= String.length p ->
  Mongo.first_match [("username", VStr u)] (Mongo.users w) = None ->
  let i := generate_id (S (Mongo.clock w)) in
  Mongo.users w !! i = None ->
  exists (r : response) (w' : Mongo.state),
    serve (register reqBody) w = (Some r, w')
    /\ status r = 201
    /\ member "userId" (body r) = VOid i
    /\ Mongo.users w' =
       <[i := [("username", VStr u);
               ("password", VStr (hash p (generate_salt (Mongo.clock w))))]]>
         (Mongo.users w)
    /\ Mongo.items w' = Mongo.items w.
Proof.
  intros Hu Hne Hp Hlen Hfree i Hfresh.
  assert (Hcred : negb (truthy (VStr u)) || negb (truthy (VStr p)) = false).
  { simpl. destruct (String.eqb_spec u ""); [contradiction|].
    destruct (String.eqb_spec p ""); [subst p; simpl in Hlen; lia|]. reflexivity. }
  assert (Hlong : js_lt ToNumber_ext (length_of (VStr p)) (Fin 6) = false).
  { rewrite password_length_test. apply Nat.ltb_ge. exact Hlen. }
  unfold Mongo.serve, App.register. rewrite Hu, Hp, Hcred, Hlong.
  do 2 eexists. split.
  { rewrite run_try_await. simpl Mongo.mongo. rewrite Hfree. simpl fmap. cbv iota.
    rewrite run_try_await. simpl Mongo.mongo. cbv iota.
    rewrite run_try_await. simpl Mongo.mongo. cbv iota.
    rewrite run_try_await. simpl Mongo.mongo.
    unfold Mongo.store_insert. simpl. fold i. rewrite Hfresh. reflexivity. }
  simpl. repeat split; reflexivity.
Qed.

(** X20. A password that is a number has no [length], so the length rule
    lets it through whatever its size; bcrypt then refuses to hash it and the
    request is answered 500, with no user stored. *)
Theorem register_numeric_password_is_500
    (reqBody : object) (n : number) (w : Mongo.state) :
  truthy (get "username" reqBody) = true ->
  get "password" reqBody = VNum n -> num_truthy n = true ->
  Mongo.first_match [("username", get "username" reqBody)] (Mongo.users w) = None ->
  exists w' : Mongo.state,
    serve (register reqBody) w
      = (Some (json 500 (message "Server error during registration.")), w')
    /\ Mongo.users w' = Mongo.users w
    /\ Mongo.items w' = Mongo.items w.
Proof.
  intros Hu Hp Hn Hfree.
  unfold Mongo.serve, App.register. rewrite Hu, Hp. simpl truthy. rewrite Hn.
  simpl negb. simpl orb. cbv iota.
  change (js_lt ToNumber_ext (length_of (VNum n)) (Fin 6)) with false. cbv iota.
  eexists. split.
  { rewrite run_try_await. simpl Mongo.mongo. rewrite Hfree. simpl fmap. cbv iota.
    rewrite run_try_await. simpl Mongo.mongo. cbv iota.
    rewrite run_try_await. simpl Mongo.mongo. reflexivity. }
  split; reflexivity.
Qed.

(** A call that does not address a collection leaves it as it was. *)
Lemma mongo_frame {X : Type} (c : call X) (c' : collection) (w : Mongo.state) :
  call_collection (existT _ c) <> Some c' ->
  Mongo.coll c' (mongo _ c w).2 = Mongo.coll c' w.
Proof.
  intros Hother.
  destruct c as [c0 fl|c0 fl|c0 d|c0 fl d|c0 fl|rounds|s salt];
    cbv [call_collection projT2] in Hother; simpl Mongo.mongo.
  - reflexivity.
  - reflexivity.
  - unfold Mongo.store_insert.
    destruct (get "_id" d); try reflexivity.
    + destruct (Mongo.coll c0 (Mongo.tick w) !! _); [destruct c'; reflexivity|].
      destruct c0, c'; try congruence; reflexivity.
    + destruct (Mongo.coll c0 w !! _); [reflexivity|].
      destruct c0, c'; try congruence; reflexivity.
  - destruct (get "_id" d); try reflexivity.
    destruct (Mongo.first_match fl (Mongo.coll c0 w)) as [[i f]|]; [|reflexivity].
    destruct c0, c'; try congruence; reflexivity.
  - destruct (Mongo.first_match fl (Mongo.coll c0 w)) as [[i f]|]; [|reflexivity].
    destruct c0, c'; try congruence; reflexivity.
  - destruct c'; reflexivity.
  - destruct s; reflexivity.
Qed.

(** A run none of whose calls addresses a collection leaves it as it was. *)
Lemma run_frame {R : Type} (p : prog R) (c' : collection) (w : Mongo.state) :
  Forall (fun c => call_collection c <> Some c') (trace mongo p w) ->
  Mongo.coll c' (run mongo p w).2 = Mongo.coll c' w.
Proof.
  revert w. induction p as [r| |X c k IH]; intros w Htrace; try reflexivity.
  simpl in *. pose proof (mongo_frame c c' w) as Hstep.
  destruct (mongo X c w) as [o w1]. simpl in Hstep.
  inversion Htrace as [|? ? Hhead Htail]; subst.
  rewrite (IH o w1 Htail). apply Hstep. exact Hhead.
Qed.

(** X21. No request to an item route changes the users collection, and no
    registration changes the items collection, whatever the request and the
    state of the store. *)
Theorem routes_leave_the_other_collection (w : Mongo.state) :
  Mongo.users (serve get_items w).2 = Mongo.users w
  /\ (forall reqBody, Mongo.users (serve (post_items reqBody) w).2 = Mongo.users w)
  /\ (forall requestedID,
        Mongo.users (serve (get_item requestedID) w).2 = Mongo.users w)
  /\ (forall requestedID,
        Mongo.users (serve (delete_item requestedID) w).2 = Mongo.users w)
  /\ (forall requestedID reqBody,
        Mongo.users (serve (put_item requestedID reqBody) w).2 = Mongo.users w)
  /\ (forall reqBody,
        Mongo.items (serve (register reqBody) w).2 = Mongo.items w).
Proof.
  assert (Hitems : forall p : prog response,
            Forall (fun c => call_collection c = Some itemsCollection)
                   (trace mongo p w) ->
            Mongo.users (serve p w).2 = Mongo.users w).
  { intros p Hp. apply (run_frame p usersCollection).
    eapply Forall_impl; [exact Hp|]. simpl. intros c Hc. rewrite Hc. discriminate. }
  split; [|split; [|split; [|split; [|split]]]]; intros.
  - apply Hitems, trace_get_items.
  - apply Hitems, trace_post_items.
  - apply Hitems, trace_get_item.
  - apply Hitems, trace_delete_item.
  - apply Hitems, trace_put_item.
  - apply (run_frame _ itemsCollection), trace_register.
Qed.

End UsersOnStore.

(** ** The further properties at concrete requests *)

Section MoreInstances.
Import Hex24 Samples.

Local Abbreviation post_items := (App.post_items no_coercion).
Local Abbreviation put_item := (App.put_item no_coercion).
Local Abbreviation register := (App.register no_coercion).

(** An empty password alongside a username. *)
Lemma register_missing_credentials_400_witness :
  register (bob "") =
  Ret (json 400 (message "Enter a username and password to register.")).
Proof.
  apply (register_missing_credentials_400 no_coercion (bob "")).
  right. reflexivity.
Defined.

(** Registering bob when bob is stored. *)
Lemma register_conflict_stops_at_the_query_witness :
  run Hex24.mongo (register (bob "secret1")) with_bob
    = (Some (json 409 (message "User already exists pls try another name!")),
       with_bob)
  /\ trace Hex24.mongo (register (bob "secret1")) with_bob
     = [existT _ (findOne usersCollection [("username", VStr "bob")])].
Proof.
  apply (register_conflict_stops_at_the_query no_coercion Hex24.mongo
           (bob "secret1") (("_id", @VOid Hex24.lib (Hex24.generate_id 1)) :: bob_stored)
           with_bob with_bob); reflexivity.
Defined.

(** Registering bob in the empty store. *)
Lemma register_success_chain_witness :
  trace Hex24.mongo (register (bob "secret1")) Hex24.empty
  = [existT _ (findOne usersCollection [("username", VStr "bob")]);
     existT _ (bcrypt_genSalt 10);
     existT _ (bcrypt_hash (VStr "secret1") "$2a$10$salt0");
     existT _ (insertOne usersCollection bob_stored)].
Proof.
  refine (proj2 (register_success_chain no_coercion Hex24.mongo
            (bob "secret1") Hex24.empty Hex24.empty
            (Mongo.tick Hex24.empty) (Mongo.tick Hex24.empty)
            (Hex24.mongo _ (insertOne usersCollection bob_stored)
               (Mongo.tick Hex24.empty)).2
            "$2a$10$salt0" "$2a$10$salt0.1terces"
            {| insertedId := Hex24.generate_id 1 |} _ _ _ _ _ _ _));
    reflexivity.
Defined.

(** Registering bob while the store is down. *)
Lemma register_rejection_is_500_witness :
  exists w' : unit,
    run store_down (register (bob "secret1")) tt
    = (Some (json 500 (message "Server error during registration.")), w').
Proof.
  apply (register_rejection_is_500 no_coercion store_down (bob "secret1") tt);
    try reflexivity.
  left. exists tt. reflexivity.
Defined.

(** Reading the stored pen. *)
Lemma get_item_reads_stored_document_witness :
  Hex24.serve (get_item pen_id) one_pen
  = (Some (json 200 (VObj (("_id", VOid (parse pen_id)) :: pen))), one_pen).
Proof.
  apply (get_item_reads_stored_document (H := Hex24.lib)
           Hex24.generate_id Hex24.generate_salt Hex24.hash pen_id one_pen).
  reflexivity.
Defined.

(** Deleting the stored pen. *)
Lemma delete_item_removes_only_that_item_witness :
  exists (r : response) (w' : Mongo.state),
    Hex24.serve (delete_item pen_id) one_pen = (Some r, w')
    /\ status r = 200
    /\ Mongo.items w' = delete (parse pen_id) (Mongo.items one_pen)
    /\ (forall j, j <> parse pen_id ->
                  Mongo.items w' !! j = Mongo.items one_pen !! j)
    /\ Mongo.users w' = Mongo.users one_pen.
Proof.
  apply (delete_item_removes_only_that_item (H := Hex24.lib)
           Hex24.generate_id Hex24.generate_salt Hex24.hash pen_id one_pen).
  reflexivity.
Defined.

(** Deleting the stored pen, then reading it. *)
Lemma get_after_delete_is_404_witness :
  let w' := (Hex24.serve (delete_item pen_id) one_pen).2 in
  Hex24.serve (get_item pen_id) w' = (Some (json 404 (message "Item not found!")), w').
Proof.
  apply (get_after_delete_is_404 (H := Hex24.lib)
           Hex24.generate_id Hex24.generate_salt Hex24.hash pen_id one_pen).
  reflexivity.
Defined.

(** Renaming the stored pen with a body that has no [price]. *)
Lemma put_item_overwrites_name_and_price_witness :
  exists (r : response) (f' : object) (w' : Mongo.state),
    Hex24.serve (put_item pen_id rename_pen) one_pen = (Some r, w')
    /\ status r = 200
    /\ Mongo.items w' = <[parse pen_id := f']> (Mongo.items one_pen)
    /\ Mongo.users w' = Mongo.users one_pen
    /\ get "name" f' = VStr "Pen2"
    /\ get "price" f' = VNull
    /\ (forall k, k <> "name" -> k <> "price" -> get k f' = get k pen).
Proof.
  apply (put_item_overwrites_name_and_price no_coercion
           Hex24.generate_id Hex24.generate_salt Hex24.hash
           pen_id rename_pen pen one_pen); reflexivity.
Defined.

(** Sending the stored pen its own name and price. *)
Lemma put_item_identical_changes_nothing_witness :
  Hex24.serve (put_item pen_id same_pen) one_pen =
  (Some (json 200 (message
     "Item found, but no changes applied (data was identical).")), one_pen).
Proof.
  apply (put_item_identical_changes_nothing no_coercion
           Hex24.generate_id Hex24.generate_salt Hex24.hash
           pen_id same_pen pen one_pen); reflexivity.
Defined.

(** An id the store does not hold. *)
Lemma unknown_id_is_404_and_changes_nothing_witness :
  let not_found := (Some (json 404 (message "Item not found!")), one_pen) in
  Hex24.serve (get_item missing_id) one_pen = not_found
  /\ Hex24.serve (delete_item missing_id) one_pen = not_found
  /\ (update_passes missing_id rename_pen = true ->
      Hex24.serve (put_item missing_id rename_pen) one_pen = not_found).
Proof.
  apply (unknown_id_is_404_and_changes_nothing no_coercion
           Hex24.generate_id Hex24.generate_salt Hex24.hash
           missing_id rename_pen one_pen); reflexivity.
Defined.

(** Registering bob in the empty store. *)
Lemma register_stores_the_hash_witness :
  exists (r : response) (w' : Mongo.state),
    Hex24.serve (register (bob "secret1")) Hex24.empty = (Some r, w')
    /\ status r = 201
    /\ member "userId" (body r) = VOid (Hex24.generate_id 1)
    /\ Mongo.users w' = <[Hex24.generate_id 1 := bob_stored]> (Mongo.users Hex24.empty)
    /\ Mongo.items w' = Mongo.items Hex24.empty.
Proof.
  apply (register_stores_the_hash no_coercion
           Hex24.generate_id Hex24.generate_salt Hex24.hash
           (bob "secret1") "bob" "secret1" Hex24.empty);
    try reflexivity.
  - discriminate.
  - simpl. lia.
Defined.

(** Registering bob with the number 1234567 as password. *)
Lemma register_numeric_password_is_500_witness :
  exists w' : Mongo.state,
    Hex24.serve (register numeric_password) Hex24.empty
      = (Some (json 500 (message "Server error during registration.")), w')
    /\ Mongo.users w' = Mongo.users Hex24.empty
    /\ Mongo.items w' = Mongo.items Hex24.empty.
Proof.
  apply (register_numeric_password_is_500 no_coercion
           Hex24.generate_id Hex24.generate_salt Hex24.hash
           numeric_password (Fin 1234567) Hex24.empty); reflexivity.
Defined.

(** Creating a pen in the empty store. *)
Lemma post_items_stores_name_price_witness :
  Mongo.items (Hex24.serve (post_items pen) Hex24.empty).2
  = <[Hex24.generate_id 0 := pen]> (Mongo.items Hex24.empty)
  /\ Mongo.users (Hex24.serve (post_items pen) Hex24.empty).2
     = Mongo.users Hex24.empty.
Proof.
  apply (post_items_stores_name_price no_coercion
           Hex24.generate_id Hex24.generate_salt Hex24.hash pen Hex24.empty
           (Hex24.serve (post_items pen) Hex24.empty).2
           (json 201 (VObj (pen ++ [("_id", @VOid Hex24.lib (Hex24.generate_id 0))]))));
    reflexivity.
Defined.

(** A five-character password. *)
Lemma register_short_password_400_witness :
  exists m : string, register (bob "12345") = Ret (json 400 (message m)).
Proof.
  apply (register_short_password_400 no_coercion (bob "12345") "12345").
  - reflexivity.
  - simpl. lia.
Defined.

(** Renaming the stored pen: the one call that is made. *)
Lemma put_item_sets_name_and_price_witness :
  trace Hex24.mongo (put_item pen_id rename_pen) one_pen =
  [existT _ (updateOne_set itemsCollection [("_id", VOid (parse pen_id))]
               [("name", VStr "Pen2"); ("price", VUndefined)])].
Proof.
  apply (put_item_sets_name_and_price no_coercion pen_id rename_pen
           Mongo.state Hex24.mongo one_pen).
  unfold update_item_valid. split; [reflexivity|]. split; [simpl; lia|].
  split; [intros _; reflexivity|intros Habsurd; discriminate Habsurd].
Defined.

End MoreInstances.
